(** * DreamAi: the retrieval-augmented query pipeline

    A shallow embedding of the query path of the application:

    - [Search.handleSearch], [Search.generateAnswer] and
      [Search.generatePrompt] of the client component
      (app/components/Search.tsx);
    - the route handler [EmbeddingRoute.POST] behind /embedding;
    - the two template tags of the common-tags package that
      [generatePrompt] goes through ([CommonTags.oneLine] and
      [CommonTags.stripIndent]);
    - the route handlers [ChatRoute.POST] behind /chat and
      [ChatSessionRoute.POST], its variant that opens a chat session,
      and both routes from the raw request ([RawRoutes]);
    - what the search component renders and several turns in a row
      ([SearchView]), the turn when an await rejects ([SearchAwait]) and
      the later copy of [generateAnswer] ([SearchLater]);
    - the handlers of the dataset form ([DatasetForm], and [FormAwait]
      when an await rejects) and the page that guards it
      ([DatasetPage]);
    - the search component wired to the two routes ([Deployment]).

    JavaScript strings are sequences of UTF-16 code units; token counts are
    the integer column of the documents table. *)

From Stdlib Require Import Ascii String.
From Stdlib Require Import List ZArith NArith Bool Lia QArith.
Import ListNotations.

Set Implicit Arguments.

(* ------------------------------------------------------------------ *)
(** ** JavaScript strings *)

Module JS.

(** A string value: its UTF-16 code units. *)
Definition jsstring := list N.

(** An ASCII literal of the source, read as code units. *)
Definition lit (s : string) : jsstring :=
  map N_of_ascii (list_ascii_of_string s).

Definition LF : N := 10.
Definition TAB : N := 9.
Definition SP : N := 32.
Definition DQUOTE : N := 34.

(** LineTerminator of ECMAScript: LF, CR, LS, PS. *)
Definition isLineTerminator (c : N) : bool :=
  ((c =? 10) || (c =? 13) || (c =? 8232) || (c =? 8233))%N.

(** What [String.prototype.trim] strips and the regular expression class
    [\s] matches: WhiteSpace (TAB, VT, FF, SP, NBSP, ZWNBSP and the
    space separators) and LineTerminator. *)
Definition isWhiteSpace (c : N) : bool :=
  ((c =? 9) || (c =? 11) || (c =? 12) || (c =? 32) || (c =? 160)
   || (c =? 5760) || ((8192 <=? c) && (c <=? 8202))
   || (c =? 8239) || (c =? 8287) || (c =? 12288) || (c =? 65279))%N
  || isLineTerminator c.

Fixpoint dropWhile (p : N -> bool) (s : jsstring) : jsstring :=
  match s with
  | [] => []
  | c :: r => if p c then dropWhile p r else s
  end.

Definition trimStart (s : jsstring) : jsstring := dropWhile isWhiteSpace s.

Definition trimEnd (s : jsstring) : jsstring :=
  rev (dropWhile isWhiteSpace (rev s)).

(** [s.trim()] *)
Definition trim (s : jsstring) : jsstring := trimEnd (trimStart s).

(** ToBoolean on a string: the empty string alone is falsy. *)
Definition truthy (s : jsstring) : bool :=
  match s with [] => false | _ :: _ => true end.

(** [s.replace(/\n/g, " ")] *)
Definition replaceNewlines (s : jsstring) : jsstring :=
  map (fun c => if (c =? LF)%N then SP else c) s.

(** [a === b] on strings. *)
Fixpoint eqb (a b : jsstring) : bool :=
  match a, b with
  | [], [] => true
  | x :: a', y :: b' => (x =? y)%N && eqb a' b'
  | _, _ => false
  end.

(** Nothing but white space (the empty string included). *)
Definition allSpace (s : jsstring) : Prop :=
  Forall (fun c => isWhiteSpace c = true) s.

(** [needle] occurs in [hay] as a contiguous run of code units. *)
Definition occursIn (needle hay : jsstring) : Prop :=
  exists pre post, hay = pre ++ needle ++ post.

Definition startsWith (p s : jsstring) : Prop :=
  exists post, s = p ++ post.

End JS.
Import JS.

(* ------------------------------------------------------------------ *)
(** ** The template tags of common-tags *)

Module CommonTags.

(** The replace transformer of [oneLine], whose pattern is one or more
    groups of a newline followed by any white space, replaced globally
    by one space: every newline, together with the white space that
    follows it, becomes one space.
    [skipping] holds while the scan is inside such a run. *)
Fixpoint replaceNewlineRuns (skipping : bool) (s : jsstring) : jsstring :=
  match s with
  | [] => []
  | c :: r =>
      if skipping && isWhiteSpace c then replaceNewlineRuns true r
      else if (c =? LF)%N then SP :: replaceNewlineRuns true r
      else c :: replaceNewlineRuns false r
  end.

(** [oneLine]: the replace transformer, then [trimResultTransformer]. *)
Definition oneLine (endResult : jsstring) : jsstring :=
  trim (replaceNewlineRuns false endResult).

(** The class [[^\S\n]]: white space other than LF. *)
Definition isIndentChar (c : N) : bool :=
  isWhiteSpace c && negb (c =? LF)%N.

Fixpoint runLength (p : N -> bool) (s : jsstring) : nat :=
  match s with
  | [] => O
  | c :: r => if p c then S (runLength p r) else O
  end.

(** The lookahead [(?=\S)]. *)
Definition nonSpaceAhead (s : jsstring) : bool :=
  match s with
  | [] => false
  | c :: _ => negb (isWhiteSpace c)
  end.

(** [endResult.match(/^[^\S\n]*(?=\S)/gm)], as the lengths of the matches
    ([el.length] is all the caller reads).  [lineStart] says whether [^]
    matches at the head of [s]; [skip] counts the code units still inside
    the previous match, where the global scan does not look. *)
Fixpoint indentMatches (lineStart : bool) (skip : nat) (s : jsstring)
  : list nat :=
  match s with
  | [] => []
  | c :: r =>
      match skip with
      | S k => indentMatches (isLineTerminator c) k r
      | O =>
          if lineStart then
            let len := runLength isIndentChar s in
            if nonSpaceAhead (skipn len s)
            then len :: indentMatches (isLineTerminator c) (pred len) r
            else indentMatches (isLineTerminator c) O r
          else indentMatches (isLineTerminator c) O r
      end
  end.

(** [match && Math.min(...match.map(el => el.length))]: [None] is the
    [null] of a search without a match. *)
Definition minIndent (lens : list nat) : option nat :=
  match lens with
  | [] => None
  | l :: ls => Some (fold_left Nat.min ls l)
  end.

(** The first [n] code units exist and none is a line terminator: what
    [.{n}] needs. *)
Fixpoint dotsAhead (n : nat) (s : jsstring) : bool :=
  match n with
  | O => true
  | S k =>
      match s with
      | [] => false
      | c :: r => negb (isLineTerminator c) && dotsAhead k r
      end
  end.

(** [endResult.replace(new RegExp(`^.{${n}}`, 'gm'), '')] for [n > 0]. *)
Fixpoint stripLines (n : nat) (lineStart : bool) (skip : nat)
  (s : jsstring) : jsstring :=
  match s with
  | [] => []
  | c :: r =>
      match skip with
      | S k => stripLines n (isLineTerminator c) k r
      | O =>
          if lineStart && dotsAhead n s
          then stripLines n (isLineTerminator c) (pred n) r
          else c :: stripLines n (isLineTerminator c) O r
      end
  end.

(** [stripIndentTransformer('initial').onEndResult] *)
Definition stripIndentTransformer (endResult : jsstring) : jsstring :=
  match minIndent (indentMatches true O endResult) with
  | Some (S n) => stripLines (S n) true O endResult
  | Some O | None => endResult
  end.

(** [stripIndent]: the indent transformer, then [trimResultTransformer]. *)
Definition stripIndent (endResult : jsstring) : jsstring :=
  trim (stripIndentTransformer endResult).

End CommonTags.

(* ------------------------------------------------------------------ *)
(** ** The search component (app/components/Search.tsx) *)

Module Search.

(** A row returned by the [match_documents] procedure, with the two
    fields the loop reads. *)
Record Document := { content : jsstring; token : Z }.

(** A fetch response: its status and its parsed body. *)
Record Response (A : Type) := { status : Z; json : A }.

Section Component.

(** The embedding values; the component only passes them on. *)
Variable Vec : Type.

(** What the component talks to: the two routes and the stored
    procedure.  [match_documents] gives [None] when the call yields no
    [data]. *)
Record Backend := {
  embeddingEndpoint : jsstring -> Response (option Vec);
  match_documents : option Vec -> option (list Document);
  chatEndpoint : jsstring -> Response jsstring
}.

(** The outbound calls and notices of a turn, in order. *)
Inductive Event :=
| FetchEmbedding (text : jsstring)
| RpcMatchDocuments (query_embedding : option Vec)
    (match_threshold : Q) (match_count : Z)
| FetchChat (prompt : jsstring)
| Toast (title description : jsstring)
| ConsoleLog (choices : jsstring).

(** The component's state: the two [useState] lists, the loading flag,
    the input element's value, and the calls made so far. *)
Record Page := {
  questions : list jsstring;
  answers : list jsstring;
  loading : bool;
  inputValue : jsstring;
  calls : list Event
}.

(** *** A state monad over the page *)

Definition M (A : Type) : Type := Page -> A * Page.

Definition ret {A} (a : A) : M A := fun st => (a, st).

Definition bind {A B} (m : M A) (k : A -> M B) : M B :=
  fun st => let (a, st') := m st in k a st'.

Definition exec {A} (m : M A) (st : Page) : Page := snd (m st).

Notation "x <- m ;; k" := (bind m (fun x => k))
  (at level 61, m at next level, right associativity).
Notation "m ;; k" := (bind m (fun _ => k))
  (at level 61, right associativity).

Definition setLoading (b : bool) : M unit := fun st =>
  (tt, {| questions := questions st; answers := answers st;
          loading := b; inputValue := inputValue st;
          calls := calls st |}).

Definition setQuestion (f : list jsstring -> list jsstring) : M unit :=
  fun st =>
  (tt, {| questions := f (questions st); answers := answers st;
          loading := loading st; inputValue := inputValue st;
          calls := calls st |}).

Definition setAnswer (f : list jsstring -> list jsstring) : M unit :=
  fun st =>
  (tt, {| questions := questions st; answers := f (answers st);
          loading := loading st; inputValue := inputValue st;
          calls := calls st |}).

Definition getInput : M jsstring := fun st => (inputValue st, st).

Definition setInput (v : jsstring) : M unit := fun st =>
  (tt, {| questions := questions st; answers := answers st;
          loading := loading st; inputValue := v;
          calls := calls st |}).

Definition emit (e : Event) : M unit := fun st =>
  (tt, {| questions := questions st; answers := answers st;
          loading := loading st; inputValue := inputValue st;
          calls := calls st ++ [e] |}).

(** *** toastError *)

Definition toastTitle : jsstring := lit "Fail to create embedding".
Definition defaultMessage : jsstring := lit "Something went wrong".

Definition toastError : M unit := emit (Toast toastTitle defaultMessage).

(** *** generatePrompt *)

(** The literal handed to [oneLine]. *)
Definition personaTemplate : jsstring :=
  LF :: lit "    You are a very enthusiastic Dream interpreting expert who loves"
  ++ LF :: lit "    to help people! Given the following sections from the Dream"
  ++ LF :: lit "    documentation or make up something people can relate, answer the question using only that information,"
  ++ LF :: lit "    outputted in markdown format. "
  ++ [LF; TAB].

(** The three literal parts of the outer template that follow the
    first substitution. *)
Definition contextHeader : jsstring :=
  [LF; LF] ++ lit "    Context sections:" ++ LF :: lit "    ".

Definition questionHeader : jsstring :=
  [LF; LF] ++ lit "    Question: " ++ [DQUOTE; DQUOTE; DQUOTE]
  ++ LF :: lit "    ".

Definition answerFooter : jsstring :=
  LF :: lit "    " ++ [DQUOTE; DQUOTE; DQUOTE] ++ [LF; LF]
  ++ lit "    Answer as markdown (including related code snippets if available):"
  ++ LF :: lit "  ".

Definition generatePrompt (contextText searchText : jsstring) : jsstring :=
  CommonTags.stripIndent
    (CommonTags.oneLine personaTemplate ++ contextHeader ++ contextText
     ++ questionHeader ++ searchText ++ answerFooter).

(** *** generateAnswer *)

Definition generateAnswer (be : Backend) (prompt : jsstring) : M unit :=
  emit (FetchChat prompt) ;;
  let res := chatEndpoint be prompt in
  if negb (status res =? 200)%Z then toastError
  else
    let choices := json res in
    emit (ConsoleLog choices) ;;
    setAnswer (fun currentAnswer => currentAnswer ++ [choices]).

(** *** The assembly loop of handleSearch *)

Definition separator : jsstring := LF :: lit "--" ++ [LF].

(** The [for] loop over [documents], from index [i] on, with the two
    accumulators; [budget] is the constant 1500 of the source. *)
Fixpoint assembleLoop (budget : Z) (documents : list Document)
  (tokenCount : Z) (contextText : jsstring) : Z * jsstring :=
  match documents with
  | [] => (tokenCount, contextText)
  | document :: rest =>
      let tokenCount := (tokenCount + token document)%Z in
      if (tokenCount >? budget)%Z then (tokenCount, contextText)
      else assembleLoop budget rest tokenCount
             (contextText ++ trim (content document) ++ separator)
  end.

(** The loop on the answer of the procedure: without [data] the
    condition [i < documents?.length] is false at once. *)
Definition assemble (budget : Z) (documents : option (list Document))
  : Z * jsstring :=
  match documents with
  | None => (0%Z, [])
  | Some ds => assembleLoop budget ds 0%Z []
  end.

Definition tokenBudget : Z := 1500.
Definition matchThreshold : Q := 2 # 10.
Definition matchCount : Z := 1.

(** *** handleSearch

    One turn, run to its end: every [await] is taken in sequence, each
    [fetch] resolves with a response (its status is what the code tests)
    and the rows of the procedure carry a string [content] and an integer
    [token], as the documents table stores them.  The state setters are
    the functional updates of the source, applied in program order. *)

Definition handleSearch (be : Backend) : M unit :=
  setLoading true ;;
  searchText <- getInput ;;
  (if truthy searchText && truthy (trim searchText) then
     setQuestion (fun currentQuestion => currentQuestion ++ [searchText]) ;;
     emit (FetchEmbedding (replaceNewlines searchText)) ;;
     let res := embeddingEndpoint be (replaceNewlines searchText) in
     if negb (status res =? 200)%Z then toastError
     else
       let data := json res in
       emit (RpcMatchDocuments data matchThreshold matchCount) ;;
       let documents := match_documents be data in
       let '(tokenCount, contextText) := assemble tokenBudget documents in
       let prompt := generatePrompt contextText searchText in
       generateAnswer be prompt
   else ret tt) ;;
  setInput [] ;;
  setLoading false.

(** The calls a turn adds to the page's log. *)
Definition turnCalls (be : Backend) (st : Page) : list Event :=
  skipn (length (calls st)) (calls (exec (handleSearch be) st)).

Definition chatPrompts (es : list Event) : list jsstring :=
  flat_map (fun e => match e with FetchChat p => [p] | _ => [] end) es.

(** *** Reading the prompt and the loop's result *)

(** The persona paragraph once [oneLine] has joined its lines. *)
Definition persona : jsstring :=
  lit "You are a very enthusiastic Dream interpreting expert who loves to help people! Given the following sections from the Dream documentation or make up something people can relate, answer the question using only that information, outputted in markdown format.".

(** [answerFooter] without the line break and indentation that close
    the template. *)
Definition answerFooterTrimmed : jsstring :=
  LF :: lit "    " ++ [DQUOTE; DQUOTE; DQUOTE] ++ [LF; LF]
  ++ lit "    Answer as markdown (including related code snippets if available):".

(** The fixed layout of a prompt around its two substitutions. *)
Definition promptLayout (contextText searchText : jsstring) : jsstring :=
  persona ++ contextHeader ++ contextText ++ questionHeader
  ++ searchText ++ answerFooterTrimmed.

(** What the loop appends for a run of documents. *)
Definition contextOf (ds : list Document) : jsstring :=
  flat_map (fun d => trim (content d) ++ separator) ds.

Definition sumTokens (ds : list Document) : Z :=
  fold_right (fun d acc => (token d + acc)%Z) 0%Z ds.

(** The guard of [handleSearch]: the text is processed. *)
Definition submitted (searchText : jsstring) : bool :=
  truthy searchText && truthy (trim searchText).

(** The prompt a processed turn hands to [generateAnswer]. *)
Definition turnPrompt (be : Backend) (searchText : jsstring) : jsstring :=
  let data := json (embeddingEndpoint be (replaceNewlines searchText)) in
  generatePrompt
    (snd (assemble tokenBudget (match_documents be data))) searchText.

End Component.

Arguments FetchEmbedding {Vec} text.
Arguments FetchChat {Vec} prompt.
Arguments Toast {Vec} title description.
Arguments ConsoleLog {Vec} choices.

(** *** Concrete pages and backends *)

(** A fresh page with [text] typed into the input. *)
Definition freshPage (text : jsstring) : Page unit :=
  {| questions := []; answers := []; loading := false;
     inputValue := text; calls := [] |}.

Definition bigDocument : Document :=
  {| content := lit "A very long passage"; token := 2000 |}.

Definition parisDocument : Document :=
  {| content := lit "Paris is the capital of France."; token := 8 |}.

(** Both routes answer; the procedure returns [docs]. *)
Definition healthyBackend (docs : option (list Document)) : Backend unit :=
  {| embeddingEndpoint := fun _ => {| status := 200; json := Some tt |};
     match_documents := fun _ => docs;
     chatEndpoint := fun _ =>
       {| status := 200; json := lit "You dreamt of Paris." |} |}.

(** The chat route answers with its error status. *)
Definition chatDownBackend : Backend unit :=
  {| embeddingEndpoint := fun _ => {| status := 200; json := Some tt |};
     match_documents := fun _ => Some [parisDocument];
     chatEndpoint := fun _ => {| status := 400; json := [] |} |}.

(** The embedding route answers with its error status. *)
Definition embeddingDownBackend : Backend unit :=
  {| embeddingEndpoint := fun _ => {| status := 500; json := None |};
     match_documents := fun _ => Some [parisDocument];
     chatEndpoint := fun _ =>
       {| status := 200; json := lit "You dreamt of Paris." |} |}.

End Search.

(* ------------------------------------------------------------------ *)
(** ** The embedding route (the POST handler behind /embedding) *)

Module EmbeddingRoute.

Section Route.

Variable Vec : Type.

(** The generative-AI client: a model is named, then asked to count
    tokens or to embed.  [None] is a call that throws. *)
Record GenAI := {
  countTokens : jsstring -> jsstring -> option Z;
  embedContent : jsstring -> jsstring -> option Vec
}.

(** What the handler reads of a request: whether [getUser] gave
    [data], and the [text] key of the body when present. *)
Record Request := { userData : bool; text : option jsstring }.

Inductive Body :=
| Message (message : jsstring)
| Embedded (token : Z) (embedding : Vec).

Record Response := { status : Z; body : Body }.

(** The calls made on the client, in order. *)
Inductive SdkCall :=
| CountTokens (model text : jsstring)
| EmbedContent (model text : jsstring).

Definition geminiProName : jsstring := lit "gemini-pro".
Definition embeddingModelName : jsstring := lit "embedding-001".

Definition POST (genAI : GenAI) (req : Request)
  : Response * list SdkCall :=
  if negb (userData req) then
    ({| status := 403; body := Message (lit "Unauthorize") |}, [])
  else
    match text req with
    | None | Some [] =>
        ({| status := 422;
            body := Message (lit "Invalid request missing key.") |}, [])
    | Some t =>
        match countTokens genAI geminiProName t with
        | None =>
            ({| status := 500;
                body := Message (lit "Something went wrong") |},
             [CountTokens geminiProName t])
        | Some token =>
            match embedContent genAI embeddingModelName t with
            | None =>
                ({| status := 500;
                    body := Message (lit "Something went wrong") |},
                 [CountTokens geminiProName t;
                  EmbedContent embeddingModelName t])
            | Some embedding =>
                ({| status := 200; body := Embedded token embedding |},
                 [CountTokens geminiProName t;
                  EmbedContent embeddingModelName t])
            end
        end
    end.

End Route.

Arguments Message {Vec} message.

(** A client in which each model offers its own operation only: the
    text model counts (here, one token per code unit), the embedding
    model embeds. *)
Definition splitClient : GenAI (list Z) :=
  {| countTokens := fun model t =>
       if JS.eqb model geminiProName
       then Some (Z.of_nat (List.length t)) else None;
     embedContent := fun model t =>
       if JS.eqb model embeddingModelName
       then Some [Z.of_nat (List.length t); 1%Z] else None |}.

Definition dreamRequest : Request :=
  {| userData := true; text := Some (lit "I was flying") |}.

End EmbeddingRoute.

(* ------------------------------------------------------------------ *)
(** ** The chat route (the POST handler behind /chat) *)

Module ChatRoute.

(** The generative-AI client as this route uses it: a model is named and
    asked to generate; [None] is a call, or the reading of its text, that
    throws.  The prompt is whatever the body held under [prompt]. *)
Record GenAI := {
  generateContent : jsstring -> option jsstring -> option jsstring
}.

(** What the handler reads of a request: whether [getUser] gave [data],
    and the [prompt] key of the body when present. *)
Record Request := { userData : bool; prompt : option jsstring }.

Inductive Body :=
| Message (message : jsstring)
| Choices (choices : jsstring).

Record Response := { status : Z; body : Body }.

Inductive SdkCall :=
| GenerateContent (model : jsstring) (prompt : option jsstring).

Definition geminiProName : jsstring := lit "gemini-pro".

Definition POST (genAI : GenAI) (req : Request) : Response * list SdkCall :=
  if negb (userData req) then
    ({| status := 403; body := Message (lit "Unauthorize") |}, [])
  else
    match generateContent genAI geminiProName (prompt req) with
    | Some text =>
        ({| status := 200; body := Choices text |},
         [GenerateContent geminiProName (prompt req)])
    | None =>
        ({| status := 400; body := Message (lit "Something went wrong!") |},
         [GenerateContent geminiProName (prompt req)])
    end.

(** A client that answers every prompt it is given and throws without
    one. *)
Definition echoClient : GenAI :=
  {| generateContent := fun _ p =>
       match p with
       | Some text => Some (lit "Dream: " ++ text)
       | None => None
       end |}.

End ChatRoute.

(* ------------------------------------------------------------------ *)
(** ** The route handlers from the raw request *)

Module RawRoutes.

(** What [getUser] puts under [data]: an object whose [user] is there or
    not.  The handlers test [data] itself. *)
Record AuthData := { user : option jsstring }.

(** The body of a request as [req.json()] finds it: not JSON at all,
    the JSON value [null], or another JSON value, of which the handler
    reads one key ([text] or [prompt]; [None] when the value has no such
    key).  The key, when present, holds a string. *)
Inductive RawBody :=
| NotJson
| JsonNull
| JsonValue (field : option jsstring).

Section Handlers.

Variable Vec : Type.

(** The handler behind /embedding.  Its answer is [None] when an
    exception leaves it: [req.json()] is awaited before the [try].
    [request?.text] reads [null] like a value without the key. *)
Definition embeddingHandler (genAI : EmbeddingRoute.GenAI Vec)
  (data : option AuthData) (raw : RawBody)
  : option (EmbeddingRoute.Response Vec) * list EmbeddingRoute.SdkCall :=
  match data with
  | None =>
      let (r, cs) := EmbeddingRoute.POST genAI
                       {| EmbeddingRoute.userData := false;
                          EmbeddingRoute.text := None |} in
      (Some r, cs)
  | Some _ =>
      match raw with
      | NotJson => (None, [])
      | JsonNull =>
          let (r, cs) := EmbeddingRoute.POST genAI
                           {| EmbeddingRoute.userData := true;
                              EmbeddingRoute.text := None |} in
          (Some r, cs)
      | JsonValue text =>
          let (r, cs) := EmbeddingRoute.POST genAI
                           {| EmbeddingRoute.userData := true;
                              EmbeddingRoute.text := text |} in
          (Some r, cs)
      end
  end.

End Handlers.

(** The handler behind /chat.  [const { prompt } = await req.json()] is
    before the [try]: a body that is not JSON, or is [null], ends the
    handler with an exception. *)
Definition chatHandler (genAI : ChatRoute.GenAI)
  (data : option AuthData) (raw : RawBody)
  : option ChatRoute.Response * list ChatRoute.SdkCall :=
  match data with
  | None =>
      let (r, cs) := ChatRoute.POST genAI
                       {| ChatRoute.userData := false;
                          ChatRoute.prompt := None |} in
      (Some r, cs)
  | Some _ =>
      match raw with
      | NotJson | JsonNull => (None, [])
      | JsonValue prompt =>
          let (r, cs) := ChatRoute.POST genAI
                           {| ChatRoute.userData := true;
                              ChatRoute.prompt := prompt |} in
          (Some r, cs)
      end
  end.

(** A [data] without a user: what [getUser] gives when nobody is signed
    in. *)
Definition nobody : option AuthData := Some {| user := None |}.

Definition somebody : option AuthData :=
  Some {| user := Some (lit "7") |}.

End RawRoutes.

(* ------------------------------------------------------------------ *)
(** ** The chat route that opens a chat session first *)

Module ChatSessionRoute.

(** The client as this handler uses it: a message sent on a fresh chat
    session, and a generation on the model; [None] is a call, or the
    reading of its text, that throws. *)
Record GenAI := {
  sendMessage : jsstring -> option jsstring;
  generateContent : jsstring -> option jsstring -> option jsstring
}.

Inductive SdkCall :=
| SendMessage (message : jsstring)
| GenerateContent (model : jsstring) (prompt : option jsstring)
| ConsoleLog (text : jsstring).

Definition geminiProName : jsstring := lit "gemini-pro".
Definition placeholderMessage : jsstring := lit "YOUR_USER_INPUT".

(** The handler, from [data] of [getUser] and the raw body.  Its answer
    is [None] when an exception leaves it: the placeholder message, the
    logging of its reply and the reading of the body are all before the
    [try]. *)
Definition POST (genAI : GenAI) (data : option RawRoutes.AuthData)
  (raw : RawRoutes.RawBody)
  : option ChatRoute.Response * list SdkCall :=
  match data with
  | None =>
      (Some {| ChatRoute.status := 403;
               ChatRoute.body := ChatRoute.Message (lit "Unauthorize") |}, [])
  | Some _ =>
      match sendMessage genAI placeholderMessage with
      | None => (None, [SendMessage placeholderMessage])
      | Some reply =>
          match raw with
          | RawRoutes.NotJson | RawRoutes.JsonNull =>
              (None, [SendMessage placeholderMessage; ConsoleLog reply])
          | RawRoutes.JsonValue prompt =>
              match generateContent genAI geminiProName prompt with
              | Some text =>
                  (Some {| ChatRoute.status := 200;
                           ChatRoute.body := ChatRoute.Choices text |},
                   [SendMessage placeholderMessage; ConsoleLog reply;
                    GenerateContent geminiProName prompt])
              | None =>
                  (Some {| ChatRoute.status := 400;
                           ChatRoute.body :=
                             ChatRoute.Message (lit "Something went wrong!") |},
                   [SendMessage placeholderMessage; ConsoleLog reply;
                    GenerateContent geminiProName prompt])
              end
          end
      end
  end.

(** A client whose chat session answers and whose model echoes. *)
Definition chattyClient : GenAI :=
  {| sendMessage := fun _ => Some (lit "Hello");
     generateContent := ChatRoute.generateContent ChatRoute.echoClient |}.

(** A client whose chat session throws. *)
Definition muteClient : GenAI :=
  {| sendMessage := fun _ => None;
     generateContent := ChatRoute.generateContent ChatRoute.echoClient |}.

End ChatSessionRoute.

(* ------------------------------------------------------------------ *)
(** ** What the search component shows, and several turns in a row *)

Module SearchView.

Import Search.

(** The second child of a question block: the loading line, or the
    paragraph with the answer ([None] when [answers[index]] is
    undefined). *)
Inductive AnswerSlot :=
| LoadingText
| AnswerText (answer : option jsstring).

(** [!answer] *)
Definition falsy (answer : option jsstring) : bool :=
  match answer with
  | None => true
  | Some s => negb (truthy s)
  end.

Section View.

Variable Vec : Type.

(** [questions.map((question, index) => ...)], from [index] on. *)
Fixpoint renderFrom (st : Page Vec) (index : nat) (qs : list jsstring)
  : list (jsstring * AnswerSlot) :=
  match qs with
  | [] => []
  | question :: rest =>
      let answer := nth_error (answers st) index in
      let isLoading := loading st && falsy answer in
      (question, if isLoading then LoadingText else AnswerText answer)
      :: renderFrom st (S index) rest
  end.

Definition render (st : Page Vec) : list (jsstring * AnswerSlot) :=
  renderFrom st O (questions st).

(** The user types [text] into the input. *)
Definition typeInto (text : jsstring) (st : Page Vec) : Page Vec :=
  {| questions := questions st; answers := answers st;
     loading := loading st; inputValue := text; calls := calls st |}.

(** Type [text], press Enter, let the turn finish. *)
Definition submit (be : Backend Vec) (text : jsstring) (st : Page Vec)
  : Page Vec :=
  exec (handleSearch be) (typeInto text st).

(** One turn after the other. *)
Definition session (be : Backend Vec) (texts : list jsstring)
  (st : Page Vec) : Page Vec :=
  fold_left (fun st text => submit be text st) texts st.

End View.

(** The chat route fails for the prompts that carry [bad] as their
    question and answers the others. *)
Definition moodyBackend (bad : jsstring) : Backend unit :=
  {| embeddingEndpoint := fun _ => {| status := 200; json := Some tt |};
     match_documents := fun _ => Some [];
     chatEndpoint := fun p =>
       if JS.eqb p (generatePrompt [] bad)
       then {| status := 400; json := [] |}
       else {| status := 200; json := lit "You dreamt of Paris." |} |}.

End SearchView.

(* ------------------------------------------------------------------ *)
(** ** The search component with awaits that can reject *)

Module SearchAwait.

Import Search.

(** A row as the procedure may hand it over: [rowContent] is [None] when
    the content is not a string, so that [content.trim()] throws. *)
Record Row := { rowContent : option jsstring; rowToken : Z }.

Section Awaits.

Variable Vec : Type.

(** The world of a turn.  A fetch is [None] when its promise rejects; the
    [json] of a response is [None] when [res.json()] rejects or, for the
    chat route, when the body is [null] and [data.choices] throws.  The
    procedure call resolves always. *)
Record World := {
  fetchEmbedding : jsstring -> option (Response (option (option Vec)));
  rpc : option Vec -> option (list Row);
  fetchChat : jsstring -> option (Response (option jsstring))
}.

(** A state monad that can stop on an exception; the state reached so far
    stays. *)
Definition T (A : Type) : Type := Page Vec -> option A * Page Vec.

Definition ok {A} (a : A) : T A := fun st => (Some a, st).

Definition throw {A} : T A := fun st => (None, st).

Definition bind {A B} (m : T A) (k : A -> T B) : T B :=
  fun st =>
    match m st with
    | (Some a, st') => k a st'
    | (None, st') => (None, st')
    end.

(** A step of the component that cannot throw. *)
Definition lift {A} (m : M Vec A) : T A :=
  fun st => let (a, st') := m st in (Some a, st').

(** [await] on a promise that resolved or rejected. *)
Definition await {A} (r : option A) : T A :=
  match r with
  | Some a => ok a
  | None => throw
  end.

Notation "x <- m ;; k" := (bind m (fun x => k))
  (at level 61, m at next level, right associativity).
Notation "m ;; k" := (bind m (fun _ => k))
  (at level 61, right associativity).

(** The [for] loop with the constant 1500 in place; the budget test comes
    before [content.trim()]. *)
Fixpoint assembleLoop (documents : list Row) (tokenCount : Z)
  (contextText : jsstring) : option (Z * jsstring) :=
  match documents with
  | [] => Some (tokenCount, contextText)
  | document :: rest =>
      let tokenCount := (tokenCount + rowToken document)%Z in
      if (tokenCount >? tokenBudget)%Z then Some (tokenCount, contextText)
      else
        match rowContent document with
        | None => None
        | Some content =>
            assembleLoop rest tokenCount
              (contextText ++ trim content ++ separator)
        end
  end.

Definition assemble (documents : option (list Row))
  : option (Z * jsstring) :=
  match documents with
  | None => Some (0%Z, [])
  | Some ds => assembleLoop ds 0%Z []
  end.

Definition generateAnswer (w : World) (prompt : jsstring) : T unit :=
  lift (emit (FetchChat prompt)) ;;
  res <- await (fetchChat w prompt) ;;
  if negb (status res =? 200)%Z then lift (@toastError Vec)
  else
    choices <- await (json res) ;;
    lift (emit (ConsoleLog choices)) ;;
    lift (setAnswer (fun currentAnswer => currentAnswer ++ [choices])).

Definition handleSearch (w : World) : T unit :=
  lift (@setLoading Vec true) ;;
  searchText <- lift (@getInput Vec) ;;
  (if truthy searchText && truthy (trim searchText) then
     lift (setQuestion
             (fun currentQuestion => currentQuestion ++ [searchText])) ;;
     lift (emit (FetchEmbedding (replaceNewlines searchText))) ;;
     res <- await (fetchEmbedding w (replaceNewlines searchText)) ;;
     if negb (status res =? 200)%Z then lift (@toastError Vec)
     else
       data <- await (json res) ;;
       lift (emit (RpcMatchDocuments data matchThreshold matchCount)) ;;
       let documents := rpc w data in
       assembled <- await (assemble documents) ;;
       let '(tokenCount, contextText) := assembled in
       let prompt := generatePrompt contextText searchText in
       generateAnswer w prompt
   else ok tt) ;;
  lift (@setInput Vec []) ;;
  lift (@setLoading Vec false).

(** The world in which every await resolves as [be] answers and every
    row carries its string. *)
Definition ofBackend (be : Backend Vec) : World :=
  {| fetchEmbedding := fun t =>
       Some {| status := status (embeddingEndpoint be t);
               json := Some (json (embeddingEndpoint be t)) |};
     rpc := fun v =>
       option_map
         (map (fun d => {| rowContent := Some (content d);
                           rowToken := token d |}))
         (match_documents be v);
     fetchChat := fun p =>
       Some {| status := status (chatEndpoint be p);
               json := Some (json (chatEndpoint be p)) |} |}.

End Awaits.

(** The network is down: both fetches reject. *)
Definition offline : World unit :=
  {| fetchEmbedding := fun _ => None;
     rpc := fun _ => None;
     fetchChat := fun _ => None |}.

End SearchAwait.

(* ------------------------------------------------------------------ *)
(** ** The later copy of generateAnswer *)

Module SearchLater.

Import Search.

Section Later.

Variable Vec : Type.

Definition fallbackAnswer : jsstring :=
  lit "Oh my child, Your lord is taking rest come later".

(** [generateAnswer] of the later copy of the component: the toast is
    commented out and a fixed answer is appended instead. *)
Definition generateAnswer (be : Backend Vec) (prompt : jsstring)
  : M Vec unit :=
  bind (emit (FetchChat prompt)) (fun _ =>
  let res := chatEndpoint be prompt in
  if negb (status res =? 200)%Z then
    setAnswer (fun currentAnswer => currentAnswer ++ [fallbackAnswer])
  else
    setAnswer (fun currentAnswer => currentAnswer ++ [json res])).

End Later.

End SearchLater.

(* ------------------------------------------------------------------ *)
(** ** The dataset form (app/dataset/components/Form.tsx) *)

Module DatasetForm.

Section Form.

Variable Vec : Type.
Variable File : Type.

(** The body of a successful /embedding response as the form reads it:
    [result?.embedding?.values] and [result.token]. *)
Record EmbeddingJson := { values : option Vec; resultToken : Z }.

(** The object handed to [insert]. *)
Record Row := { data : jsstring; embedding : option Vec; token : Z }.

(** What the form talks to: the embedding route, the documents table
    ([insert] answers with the error's message, if any) and the PDF route
    ([None] when the body has no [data]). *)
Record Backend := {
  embeddingEndpoint : jsstring -> Search.Response EmbeddingJson;
  insert : Row -> option jsstring;
  pdfEndpoint : option File -> option jsstring
}.

Inductive Event :=
| FetchEmbedding (text : jsstring)
| InsertDocument (row : Row)
| FetchPdf (file : option File)
| Toast (title : jsstring) (description : option jsstring).

(** The form's state: the loading flag, the chosen file, the text area's
    value and the calls made so far. *)
Record FormState := {
  loading : bool;
  file : option File;
  inputValue : jsstring;
  calls : list Event
}.

Definition M (A : Type) : Type := FormState -> A * FormState.

Definition ret {A} (a : A) : M A := fun st => (a, st).

Definition bind {A B} (m : M A) (k : A -> M B) : M B :=
  fun st => let (a, st') := m st in k a st'.

Definition exec {A} (m : M A) (st : FormState) : FormState := snd (m st).

Notation "x <- m ;; k" := (bind m (fun x => k))
  (at level 61, m at next level, right associativity).
Notation "m ;; k" := (bind m (fun _ => k))
  (at level 61, right associativity).

Definition setLoading (b : bool) : M unit := fun st =>
  (tt, {| loading := b; file := file st; inputValue := inputValue st;
          calls := calls st |}).

Definition getInput : M jsstring := fun st => (inputValue st, st).

Definition getFile : M (option File) := fun st => (file st, st).

Definition setInput (v : jsstring) : M unit := fun st =>
  (tt, {| loading := loading st; file := file st; inputValue := v;
          calls := calls st |}).

Definition emit (e : Event) : M unit := fun st =>
  (tt, {| loading := loading st; file := file st;
          inputValue := inputValue st; calls := calls st ++ [e] |}).

Definition toastTitle : jsstring := lit "Fail to create embedding".
Definition defaultMessage : jsstring := lit "Something went wrong".
Definition successTitle : jsstring := lit "Successfully create embedding.".

(** [toastError(message = "Something went wrong")] *)
Definition toastError (message : option jsstring) : M unit :=
  emit (Toast toastTitle
          (Some match message with
                | Some m => m
                | None => defaultMessage
                end)).

(** [handleCreateEmbeddings(data)]; [None] is an undefined argument. *)
Definition handleCreateEmbeddings (be : Backend) (data : option jsstring)
  : M unit :=
  setLoading true ;;
  (match data with
   | Some data =>
       if truthy data && truthy (trim data) then
         emit (FetchEmbedding (replaceNewlines data)) ;;
         let res := embeddingEndpoint be (replaceNewlines data) in
         if negb (Search.status res =? 200)%Z then toastError None
         else
           let result := Search.json res in
           let embedding := values result in
           let token := resultToken result in
           let row := {| data := data; embedding := embedding;
                         token := token |} in
           emit (InsertDocument row) ;;
           match insert be row with
           | Some message => toastError (Some message)
           | None =>
               emit (Toast successTitle None) ;;
               setInput []
           end
       else ret tt
   | None => ret tt
   end) ;;
  setLoading false.

(** [handleSubmit] *)
Definition handleSubmit (be : Backend) : M unit :=
  content <- getInput ;;
  handleCreateEmbeddings be (Some content).

(** [handleSubmitPdf] *)
Definition handleSubmitPdf (be : Backend) : M unit :=
  f <- getFile ;;
  emit (FetchPdf f) ;;
  let result := pdfEndpoint be f in
  handleCreateEmbeddings be result.

(** The calls a handler adds to the form's log. *)
Definition newCalls (m : M unit) (st : FormState) : list Event :=
  skipn (length (calls st)) (calls (exec m st)).

(** The guard of [handleCreateEmbeddings] on its argument. *)
Definition processed (data : option jsstring) : bool :=
  match data with
  | Some d => Search.submitted d
  | None => false
  end.

(** The row the form builds from the text and the embedding response. *)
Definition rowFor (be : Backend) (d : jsstring) : Row :=
  {| data := d;
     embedding := values (Search.json (embeddingEndpoint be (replaceNewlines d)));
     token := resultToken
                (Search.json (embeddingEndpoint be (replaceNewlines d))) |}.

(** The four ways a call of [handleCreateEmbeddings] can end. *)
Inductive FormEnd (be : Backend) (data : option jsstring) (st : FormState)
  : FormState -> list Event -> Prop :=
| EndSkipped :
    processed data = false ->
    FormEnd be data st
      {| loading := false; file := file st; inputValue := inputValue st;
         calls := calls st |} []
| EndEmbeddingFailed d :
    data = Some d -> Search.submitted d = true ->
    Search.status (embeddingEndpoint be (replaceNewlines d)) <> 200%Z ->
    FormEnd be data st
      {| loading := false; file := file st; inputValue := inputValue st;
         calls := calls st
                  ++ [FetchEmbedding (replaceNewlines d);
                      Toast toastTitle (Some defaultMessage)] |}
      [FetchEmbedding (replaceNewlines d);
       Toast toastTitle (Some defaultMessage)]
| EndRefused d message :
    data = Some d -> Search.submitted d = true ->
    Search.status (embeddingEndpoint be (replaceNewlines d)) = 200%Z ->
    insert be (rowFor be d) = Some message ->
    FormEnd be data st
      {| loading := false; file := file st; inputValue := inputValue st;
         calls := calls st
                  ++ [FetchEmbedding (replaceNewlines d);
                      InsertDocument (rowFor be d);
                      Toast toastTitle (Some message)] |}
      [FetchEmbedding (replaceNewlines d);
       InsertDocument (rowFor be d);
       Toast toastTitle (Some message)]
| EndStored d :
    data = Some d -> Search.submitted d = true ->
    Search.status (embeddingEndpoint be (replaceNewlines d)) = 200%Z ->
    insert be (rowFor be d) = None ->
    FormEnd be data st
      {| loading := false; file := file st; inputValue := [];
         calls := calls st
                  ++ [FetchEmbedding (replaceNewlines d);
                      InsertDocument (rowFor be d);
                      Toast successTitle None] |}
      [FetchEmbedding (replaceNewlines d);
       InsertDocument (rowFor be d);
       Toast successTitle None].

Definition isToast (e : Event) : bool :=
  match e with Toast _ _ => true | _ => false end.

Definition isInsert (e : Event) : bool :=
  match e with InsertDocument _ => true | _ => false end.

End Form.

Arguments FetchEmbedding {Vec File} text.
Arguments Toast {Vec File} title description.
Arguments FetchPdf {Vec} {File} file.
Arguments InsertDocument {Vec File} row.

(** A form with [text] in the text area and no file chosen. *)
Definition typedForm (text : jsstring) : FormState unit unit :=
  {| loading := false; file := None; inputValue := text; calls := [] |}.

(** Everything answers; the table accepts the row unless [refuse] is
    given, which is then the error's message. *)
Definition formBackend (refuse : option jsstring) (embedStatus : Z)
  : Backend unit unit :=
  {| embeddingEndpoint := fun _ =>
       {| Search.status := embedStatus;
          Search.json := {| values := Some tt; resultToken := 8 |} |};
     insert := fun _ => refuse;
     pdfEndpoint := fun _ => Some (lit "Text of the PDF") |}.

End DatasetForm.

(* ------------------------------------------------------------------ *)
(** ** The dataset form with awaits that can reject *)

Module FormAwait.

Import DatasetForm.

(** The argument of [handleCreateEmbeddings] as JavaScript may pass it:
    a falsy value, a string, or a truthy value that is not a string, on
    which [data.trim()] throws. *)
Inductive Arg :=
| Falsy
| Text (data : jsstring)
| NotText.

Section Awaits.

Variable Vec : Type.
Variable File : Type.

(** The world of a call.  The fetch is [None] when its promise rejects;
    the [json] of the response is [None] when [res.json()] rejects or the
    body is [null], on which [result.token] throws.  [insert] resolves
    always, with the error's message if any. *)
Record World := {
  fetchEmbedding : jsstring -> option (Search.Response (option (EmbeddingJson Vec)));
  insertRow : Row Vec -> option jsstring
}.

Definition T (A : Type) : Type :=
  FormState Vec File -> option A * FormState Vec File.

Definition ok {A} (a : A) : T A := fun st => (Some a, st).

Definition throw {A} : T A := fun st => (None, st).

Definition bind {A B} (m : T A) (k : A -> T B) : T B :=
  fun st =>
    match m st with
    | (Some a, st') => k a st'
    | (None, st') => (None, st')
    end.

Definition lift {A} (m : M Vec File A) : T A :=
  fun st => let (a, st') := m st in (Some a, st').

Definition await {A} (r : option A) : T A :=
  match r with
  | Some a => ok a
  | None => throw
  end.

Notation "x <- m ;; k" := (bind m (fun x => k))
  (at level 61, m at next level, right associativity).
Notation "m ;; k" := (bind m (fun _ => k))
  (at level 61, right associativity).

Definition handleCreateEmbeddings (w : World) (arg : Arg) : T unit :=
  lift (@setLoading Vec File true) ;;
  (match arg with
   | Falsy => ok tt
   | NotText => throw
   | Text data =>
       if truthy data && truthy (trim data) then
         lift (emit (FetchEmbedding (replaceNewlines data))) ;;
         res <- await (fetchEmbedding w (replaceNewlines data)) ;;
         if negb (Search.status res =? 200)%Z then lift (@toastError Vec File None)
         else
           result <- await (Search.json res) ;;
           let row := {| data := data; embedding := values result;
                         token := resultToken result |} in
           lift (emit (InsertDocument row)) ;;
           match insertRow w row with
           | Some message => lift (@toastError Vec File (Some message))
           | None =>
               lift (emit (Toast successTitle None)) ;;
               lift (@setInput Vec File [])
           end
       else ok tt
   end) ;;
  lift (@setLoading Vec File false).

(** The calls a run added to the form's log. *)
Definition newCalls (w : World) (arg : Arg) (st : FormState Vec File)
  : list (Event Vec File) :=
  skipn (length (calls st)) (calls (snd (handleCreateEmbeddings w arg st))).

(** The world in which every await resolves as [be] answers. *)
Definition ofBackend (be : Backend Vec File) : World :=
  {| fetchEmbedding := fun t =>
       Some {| Search.status := Search.status (embeddingEndpoint be t);
               Search.json := Some (Search.json (embeddingEndpoint be t)) |};
     insertRow := insert be |}.



End Awaits.

(** The network is down. *)
Definition offline : World unit :=
  {| fetchEmbedding := fun _ => None; insertRow := fun _ => None |}.

(** Everything answers and the table accepts the row. *)
Definition online : World unit :=
  {| fetchEmbedding := fun _ =>
       Some {| Search.status := 200;
               Search.json := Some {| values := Some tt; resultToken := 8 |} |};
     insertRow := fun _ => None |}.

End FormAwait.

(* ------------------------------------------------------------------ *)
(** ** The dataset page (the server component that shows the form) *)

Module DatasetPage.

Section Page.

Variable UserId : Type.

(** What the page asks of the auth service and of the users table:
    [data?.user] and, for an id, [user?.role]. *)
Record Services := {
  getUser : option UserId;
  roleOf : UserId -> option jsstring
}.

Inductive Outcome :=
| Redirect (path : jsstring)
| RenderForm.

Inductive Query :=
| GetUser
| SelectRole (id : UserId).

Definition isAdmin (role : option jsstring) : bool :=
  match role with
  | Some r => JS.eqb r (lit "admin")
  | None => false
  end.

Definition Page (sv : Services) : Outcome * list Query :=
  match getUser sv with
  | None => (Redirect (lit "/auth"), [GetUser])
  | Some id =>
      if negb (isAdmin (roleOf sv id))
      then (Redirect (lit "/"), [GetUser; SelectRole id])
      else (RenderForm, [GetUser; SelectRole id])
  end.

End Page.

Arguments GetUser {UserId}.

End DatasetPage.

(* ------------------------------------------------------------------ *)
(** ** The search component in front of the two routes *)

Module Deployment.

Section Wired.

(** The embedding object of the client library and the vector read from it
    by [embedding?.values]. *)
Variable Emb : Type.
Variable Vec : Type.
Variable valuesOf : Emb -> option Vec.

(** The backend the browser sees when its two fetches reach the two
    route handlers with the session [auth] and the text or prompt it
    sent as the body. *)
Definition routedBackend (auth : bool)
  (embedder : EmbeddingRoute.GenAI Emb) (generator : ChatRoute.GenAI)
  (rpc : option Vec -> option (list Search.Document))
  : Search.Backend Vec :=
  {| Search.embeddingEndpoint := fun text =>
       let r := fst (EmbeddingRoute.POST embedder
                       {| EmbeddingRoute.userData := auth;
                          EmbeddingRoute.text := Some text |}) in
       {| Search.status := EmbeddingRoute.status r;
          Search.json :=
            match EmbeddingRoute.body r with
            | EmbeddingRoute.Embedded _ e => valuesOf e
            | EmbeddingRoute.Message _ => None
            end |};
     Search.match_documents := rpc;
     Search.chatEndpoint := fun prompt =>
       let r := fst (ChatRoute.POST generator
                       {| ChatRoute.userData := auth;
                          ChatRoute.prompt := Some prompt |}) in
       {| Search.status := ChatRoute.status r;
          Search.json :=
            match ChatRoute.body r with
            | ChatRoute.Choices c => c
            | ChatRoute.Message _ => []
            end |} |}.

End Wired.

(** The embedding client of [EmbeddingRoute.splitClient] with another
    way of counting tokens. *)
Definition doubleCountClient : EmbeddingRoute.GenAI (list Z) :=
  {| EmbeddingRoute.countTokens := fun model t =>
       if JS.eqb model EmbeddingRoute.geminiProName
       then Some (2 * Z.of_nat (List.length t))%Z else None;
     EmbeddingRoute.embedContent :=
       EmbeddingRoute.embedContent EmbeddingRoute.splitClient |}.

End Deployment.

(* ------------------------------------------------------------------ *)
(** ** Facts about strings and the template tags *)

Section StringFacts.

Lemma dropWhile_allSpace s r :
  allSpace s -> dropWhile isWhiteSpace (s ++ r) = dropWhile isWhiteSpace r.
Proof.
  induction 1 as [|c s Hc _ IH]; simpl; [reflexivity|].
  now rewrite Hc.
Qed.

Lemma allSpace_rev s : allSpace s -> allSpace (rev s).
Proof. unfold allSpace. apply Forall_rev. Qed.

Lemma trim_allSpace s : allSpace s -> trim s = [].
Proof.
  intros H. unfold trim, trimStart, trimEnd.
  rewrite <- (app_nil_r s), dropWhile_allSpace by assumption.
  reflexivity.
Qed.

(** A string that starts and ends with something visible, followed by
    white space only: [trim] removes exactly that tail. *)
Lemma trimEnd_core s d ws :
  isWhiteSpace d = false -> allSpace ws ->
  trimEnd (s ++ d :: ws) = s ++ [d].
Proof.
  intros Hd Hws. unfold trimEnd.
  rewrite rev_app_distr. simpl rev.
  rewrite <- app_assoc, dropWhile_allSpace by now apply allSpace_rev.
  simpl. rewrite Hd. simpl. now rewrite rev_involutive.
Qed.

(** A string that starts and ends with something visible, followed by
    white space only: [trim] removes exactly that tail. *)
Lemma trim_core c s d ws :
  isWhiteSpace c = false -> isWhiteSpace d = false -> allSpace ws ->
  trim (c :: s ++ d :: ws) = c :: s ++ [d].
Proof.
  intros Hc Hd Hws. unfold trim, trimStart.
  cbn [dropWhile]. rewrite Hc.
  change (c :: s ++ d :: ws) with ((c :: s) ++ d :: ws).
  now rewrite trimEnd_core.
Qed.

Lemma fold_min_zero ls : fold_left Nat.min ls O = O.
Proof. induction ls as [|l ls IH]; simpl; auto. Qed.

(** A result whose first code unit is visible has a line without
    indentation, so nothing is stripped. *)
Lemma stripIndentTransformer_visible_head c s :
  isWhiteSpace c = false ->
  CommonTags.stripIndentTransformer (c :: s) = c :: s.
Proof.
  intros Hc. unfold CommonTags.stripIndentTransformer.
  cbn [CommonTags.indentMatches CommonTags.runLength].
  unfold CommonTags.isIndentChar. rewrite Hc.
  cbn [andb skipn CommonTags.nonSpaceAhead]. rewrite Hc.
  cbn [negb CommonTags.minIndent]. now rewrite fold_min_zero.
Qed.

End StringFacts.

(* ------------------------------------------------------------------ *)
(** ** The prompt template *)

Section PromptFacts.

Import Search.

Lemma oneLine_personaTemplate : CommonTags.oneLine personaTemplate = persona.
Proof. vm_compute. reflexivity. Qed.

Lemma persona_head : persona = 89%N :: tl persona.
Proof. vm_compute. reflexivity. Qed.

Lemma answerFooter_split :
  answerFooter = removelast answerFooterTrimmed ++ 58%N :: [LF; SP; SP].
Proof. vm_compute. reflexivity. Qed.

Lemma answerFooterTrimmed_split :
  answerFooterTrimmed = removelast answerFooterTrimmed ++ [58%N].
Proof. vm_compute. reflexivity. Qed.

(** The tagged template is the fixed layout with the two substitutions
    in place, whatever they are. *)
Lemma generatePrompt_layout contextText searchText :
  generatePrompt contextText searchText = promptLayout contextText searchText.
Proof.
  unfold generatePrompt, promptLayout, CommonTags.stripIndent.
  rewrite oneLine_personaTemplate, answerFooter_split.
  rewrite answerFooterTrimmed_split at 2.
  rewrite persona_head.
  set (p := tl persona). set (f := removelast answerFooterTrimmed).
  cbn [app].
  rewrite stripIndentTransformer_visible_head by reflexivity.
  replace (p ++ contextHeader ++ contextText ++ questionHeader
             ++ searchText ++ f ++ 58%N :: [LF; SP; SP])
    with ((p ++ contextHeader ++ contextText ++ questionHeader
             ++ searchText ++ f) ++ 58%N :: [LF; SP; SP])
    by (now rewrite <- !app_assoc).
  rewrite trim_core;
    [ | reflexivity | reflexivity | repeat constructor ].
  now rewrite <- !app_assoc.
Qed.

End PromptFacts.

(** C8 (render totality): for every context and every question, empty
    ones included, the rendered prompt is the persona paragraph, the
    context header, the context verbatim, the question header, the
    question verbatim and the closing lines, in that order; so both
    substitutions occur in it unchanged, and an empty context leaves the
    persona and the headers in place. *)
Theorem generatePrompt_keeps_context_and_question :
  forall contextText searchText : jsstring,
    Search.generatePrompt contextText searchText
      = Search.persona ++ Search.contextHeader ++ contextText
        ++ Search.questionHeader ++ searchText ++ Search.answerFooterTrimmed
    /\ startsWith Search.persona (Search.generatePrompt contextText searchText)
    /\ occursIn contextText (Search.generatePrompt contextText searchText)
    /\ occursIn searchText (Search.generatePrompt contextText searchText)
    /\ Search.generatePrompt [] searchText
         = Search.persona ++ Search.contextHeader ++ Search.questionHeader
           ++ searchText ++ Search.answerFooterTrimmed.
Proof.
  intros c q. rewrite !generatePrompt_layout. unfold Search.promptLayout.
  repeat split.
  - eexists. reflexivity.
  - exists (Search.persona ++ Search.contextHeader),
           (Search.questionHeader ++ q ++ Search.answerFooterTrimmed).
    now rewrite <- !app_assoc.
  - exists (Search.persona ++ Search.contextHeader ++ c
            ++ Search.questionHeader),
           Search.answerFooterTrimmed.
    now rewrite <- !app_assoc.
Qed.

(* ------------------------------------------------------------------ *)
(** ** The assembly loop *)

Section AssemblyFacts.

Import Search.
Local Open Scope Z_scope.

(** The loop from any pair of accumulators: it appends the pieces of a
    prefix of the documents, every partial total along that prefix is
    within the budget, and it stops short of the end exactly when the
    next partial total is over the budget; the first component is the
    last partial total formed. *)
Lemma assembleLoop_prefix budget ds :
  forall tokenCount contextText,
  exists k : nat,
    (k <= List.length ds)%nat
    /\ snd (assembleLoop budget ds tokenCount contextText)
       = contextText ++ contextOf (firstn k ds)
    /\ (forall j : nat, (1 <= j <= k)%nat ->
          tokenCount + sumTokens (firstn j ds) <= budget)
    /\ ((k < List.length ds)%nat ->
          fst (assembleLoop budget ds tokenCount contextText)
            = tokenCount + sumTokens (firstn (S k) ds)
          /\ budget < tokenCount + sumTokens (firstn (S k) ds))
    /\ (k = List.length ds ->
          fst (assembleLoop budget ds tokenCount contextText)
            = tokenCount + sumTokens ds).
Proof.
  induction ds as [|d ds IH]; intros tc ctx.
  - exists O. cbn [assembleLoop fst snd firstn contextOf flat_map List.length].
    split; [lia|]. split; [now rewrite app_nil_r|].
    split; [intros j Hj; lia|]. split; [intros Hk; lia|].
    intros _. cbn. lia.
  - cbn [assembleLoop].
    destruct (tc + token d >? budget) eqn:Hgt.
    + exists O.
      cbn [fst snd firstn contextOf flat_map List.length sumTokens fold_right].
      split; [lia|]. split; [now rewrite app_nil_r|].
      split; [intros j Hj; lia|]. split; [|intros Hk; discriminate Hk].
      intros _. apply Z.gtb_lt in Hgt. lia.
    + rewrite Z.gtb_ltb, Z.ltb_ge in Hgt.
      destruct (IH (tc + token d) (ctx ++ trim (content d) ++ separator))
        as (k & Hk & Htxt & Hpre & Hstop & Hend).
      exists (S k). cbn [List.length].
      split; [lia|]. split; [|split; [|split]].
      * rewrite Htxt. cbn [firstn contextOf flat_map].
        now rewrite <- !app_assoc.
      * intros j Hj. destruct j as [|j]; [lia|].
        cbn [firstn sumTokens fold_right].
        destruct j as [|j].
        -- cbn. lia.
        -- specialize (Hpre (S j)). unfold sumTokens in Hpre.
           assert (Hj' : (1 <= S j <= k)%nat) by lia.
           specialize (Hpre Hj'). lia.
      * intros Hlt. destruct Hstop as [Hf Hb]; [lia|].
        rewrite Hf. cbn [firstn sumTokens fold_right] in *.
        unfold sumTokens in *. split; lia.
      * intros Hk'. rewrite Hend by lia.
        cbn [sumTokens fold_right]. unfold sumTokens. lia.
Qed.

End AssemblyFacts.

(* ------------------------------------------------------------------ *)
(** ** One turn of handleSearch, branch by branch *)

Section TurnFacts.

Import Search.
Variable Vec : Type.
Implicit Types (be : Backend Vec) (st : Page Vec).

Lemma submitted_allSpace searchText :
  allSpace searchText -> submitted searchText = false.
Proof.
  intros H. unfold submitted. rewrite trim_allSpace by assumption.
  apply andb_false_r.
Qed.

Local Ltac run_turn :=
  unfold handleSearch, generateAnswer, toastError, exec, bind, ret,
    setLoading, setQuestion, setAnswer, getInput, setInput, emit;
  cbn [fst snd questions answers loading inputValue calls].

Lemma handleSearch_blank be st :
  submitted (inputValue st) = false ->
  exec (handleSearch be) st
  = {| questions := questions st; answers := answers st;
       loading := false; inputValue := []; calls := calls st |}.
Proof.
  unfold submitted. intros H. run_turn. rewrite H. reflexivity.
Qed.

Lemma handleSearch_embedding_failed be st :
  submitted (inputValue st) = true ->
  (status (embeddingEndpoint be (replaceNewlines (inputValue st))) =? 200)%Z
    = false ->
  exec (handleSearch be) st
  = {| questions := questions st ++ [inputValue st];
       answers := answers st;
       loading := false; inputValue := [];
       calls := calls st
                ++ [FetchEmbedding (replaceNewlines (inputValue st));
                    Toast toastTitle defaultMessage] |}.
Proof.
  unfold submitted. intros H Hs. run_turn. rewrite H.
  cbn [fst snd questions answers loading inputValue calls].
  rewrite Hs. cbn. now rewrite <- app_assoc.
Qed.

Lemma handleSearch_generation_failed be st :
  submitted (inputValue st) = true ->
  (status (embeddingEndpoint be (replaceNewlines (inputValue st))) =? 200)%Z
    = true ->
  (status (chatEndpoint be (turnPrompt be (inputValue st))) =? 200)%Z
    = false ->
  exec (handleSearch be) st
  = {| questions := questions st ++ [inputValue st];
       answers := answers st;
       loading := false; inputValue := [];
       calls := calls st
                ++ [FetchEmbedding (replaceNewlines (inputValue st));
                    RpcMatchDocuments
                      (json (embeddingEndpoint be
                               (replaceNewlines (inputValue st))))
                      matchThreshold matchCount;
                    FetchChat (turnPrompt be (inputValue st));
                    Toast toastTitle defaultMessage] |}.
Proof.
  unfold submitted, turnPrompt. intros H Hs Hc. run_turn. rewrite H.
  cbn [fst snd questions answers loading inputValue calls].
  rewrite Hs. cbn [negb].
  destruct (assemble tokenBudget _) as [tokenCount contextText].
  cbn [fst snd questions answers loading inputValue calls] in *.
  rewrite Hc. cbn [negb fst snd questions answers loading inputValue calls].
  now rewrite <- !app_assoc.
Qed.

Lemma handleSearch_generated be st :
  submitted (inputValue st) = true ->
  (status (embeddingEndpoint be (replaceNewlines (inputValue st))) =? 200)%Z
    = true ->
  (status (chatEndpoint be (turnPrompt be (inputValue st))) =? 200)%Z
    = true ->
  exec (handleSearch be) st
  = {| questions := questions st ++ [inputValue st];
       answers := answers st
                  ++ [json (chatEndpoint be (turnPrompt be (inputValue st)))];
       loading := false; inputValue := [];
       calls := calls st
                ++ [FetchEmbedding (replaceNewlines (inputValue st));
                    RpcMatchDocuments
                      (json (embeddingEndpoint be
                               (replaceNewlines (inputValue st))))
                      matchThreshold matchCount;
                    FetchChat (turnPrompt be (inputValue st));
                    ConsoleLog
                      (json (chatEndpoint be
                               (turnPrompt be (inputValue st))))] |}.
Proof.
  unfold submitted, turnPrompt. intros H Hs Hc. run_turn. rewrite H.
  cbn [fst snd questions answers loading inputValue calls].
  rewrite Hs. cbn [negb].
  destruct (assemble tokenBudget _) as [tokenCount contextText].
  cbn [fst snd questions answers loading inputValue calls] in *.
  rewrite Hc. cbn [negb fst snd questions answers loading inputValue calls].
  now rewrite <- !app_assoc.
Qed.

Lemma skipn_own_length {A} (l r : list A) : skipn (List.length l) (l ++ r) = r.
Proof. induction l; simpl; auto. Qed.

End TurnFacts.

Section TurnCalls.

Import Search.
Variable Vec : Type.
Implicit Types (be : Backend Vec) (st : Page Vec).

Lemma turnCalls_embedding_failed be st :
  submitted (inputValue st) = true ->
  (status (embeddingEndpoint be (replaceNewlines (inputValue st))) =? 200)%Z
    = false ->
  turnCalls be st
  = [FetchEmbedding (replaceNewlines (inputValue st));
     Toast toastTitle defaultMessage].
Proof.
  intros H Hs. unfold turnCalls.
  rewrite handleSearch_embedding_failed by assumption.
  cbn [calls]. apply skipn_own_length.
Qed.

(** A processed turn whose embedding request succeeds asks the chat
    route once, with [turnPrompt], whatever the route then answers. *)
Lemma chatPrompts_turn be st :
  submitted (inputValue st) = true ->
  (status (embeddingEndpoint be (replaceNewlines (inputValue st))) =? 200)%Z
    = true ->
  chatPrompts (turnCalls be st) = [turnPrompt be (inputValue st)].
Proof.
  intros H Hs. unfold turnCalls.
  destruct (status (chatEndpoint be (turnPrompt be (inputValue st)))
            =? 200)%Z eqn:Hc.
  - rewrite handleSearch_generated by assumption.
    cbn [calls]. now rewrite skipn_own_length.
  - rewrite handleSearch_generation_failed by assumption.
    cbn [calls]. now rewrite skipn_own_length.
Qed.

End TurnCalls.

(** The scenario of one stored passage of 8 tokens: the passage is
    within the budget, the prompt sent to the chat route carries it and
    the question, and the answer is paired with the question. *)
Example paris_turn :
  let st := Search.exec
              (Search.handleSearch
                 (Search.healthyBackend (Some [Search.parisDocument])))
              (Search.freshPage (lit "What is the capital of France?")) in
  Search.assemble Search.tokenBudget (Some [Search.parisDocument])
    = (8%Z, lit "Paris is the capital of France." ++ Search.separator)
  /\ Search.chatPrompts (Search.calls st)
     = [Search.promptLayout
          (lit "Paris is the capital of France." ++ Search.separator)
          (lit "What is the capital of France?")]
  /\ Search.questions st = [lit "What is the capital of France?"]
  /\ Search.answers st = [lit "You dreamt of Paris."]
  /\ Search.loading st = false.
Proof. vm_compute. repeat split. Qed.

(* ------------------------------------------------------------------ *)
(** ** The token budget *)

(** C1, at a concrete input: one match of 2000 tokens against the budget
    of 1500 leaves the accumulator at 2000. *)
Lemma accumulator_over_budget :
  fst (Search.assemble Search.tokenBudget (Some [Search.bigDocument]))
    = 2000%Z
  /\ ~ (fst (Search.assemble Search.tokenBudget (Some [Search.bigDocument]))
        <= Search.tokenBudget)%Z.
Proof.
  split; [reflexivity|]. vm_compute. intros H. now apply H.
Qed.

(** C1 (token budget, amended): for every sequence of matches and every
    budget B >= 0, the context is made of a prefix of the matches whose
    token counts total at most B; the loop's accumulator is within B
    exactly when that prefix is the whole sequence, that is, when no match
    was rejected. *)
Theorem included_tokens_within_budget :
  forall (budget : Z) (ds : list Search.Document),
    (0 <= budget)%Z ->
    exists k : nat,
      (k <= List.length ds)%nat
      /\ snd (Search.assemble budget (Some ds))
         = Search.contextOf (firstn k ds)
      /\ (Search.sumTokens (firstn k ds) <= budget)%Z
      /\ ((fst (Search.assemble budget (Some ds)) <= budget)%Z
          <-> k = List.length ds).
Proof.
  intros budget ds HB. unfold Search.assemble.
  destruct (assembleLoop_prefix budget ds 0%Z [])
    as (k & Hk & Htxt & Hpre & Hstop & Hend).
  exists k. split; [assumption|]. split; [assumption|]. split.
  - destruct k as [|k]; [cbn; lia|].
    specialize (Hpre (S k)). lia.
  - split.
    + intros Hle.
      destruct (Nat.eq_dec k (List.length ds)) as [|Hne]; [assumption|].
      destruct Hstop as [Hf Hb]; lia.
    + intros ->. rewrite Hend by reflexivity.
      rewrite <- (firstn_all ds) at 1.
      destruct ds as [|d ds]; [cbn; lia|].
      specialize (Hpre (List.length (d :: ds))). cbn [List.length] in *. lia.
Qed.

Lemma included_tokens_within_budget_witness :
  (0 <= 1500)%Z
  /\ exists k : nat,
      (k <= 2)%nat
      /\ snd (Search.assemble 1500
                (Some [Search.parisDocument; Search.bigDocument]))
         = Search.contextOf
             (firstn k [Search.parisDocument; Search.bigDocument])
      /\ (Search.sumTokens
            (firstn k [Search.parisDocument; Search.bigDocument]) <= 1500)%Z
      /\ ((fst (Search.assemble 1500
                  (Some [Search.parisDocument; Search.bigDocument]))
           <= 1500)%Z
          <-> k = 2%nat).
Proof.
  split; [lia|].
  apply (included_tokens_within_budget
           [Search.parisDocument; Search.bigDocument]).
  lia.
Defined.

(** C4, at a concrete input: the first match alone is over the budget,
    the context is empty, and the accumulator is 2000, not 0. *)
Lemma first_match_over_budget_accumulator :
  (Search.token Search.bigDocument > Search.tokenBudget)%Z
  /\ Search.assemble Search.tokenBudget
       (Some [Search.bigDocument; Search.parisDocument])
     = (2000%Z, [])
  /\ ~ (snd (Search.assemble Search.tokenBudget
               (Some [Search.bigDocument; Search.parisDocument])) = []
        /\ fst (Search.assemble Search.tokenBudget
                  (Some [Search.bigDocument; Search.parisDocument])) = 0%Z).
Proof.
  split; [reflexivity|]. split; [reflexivity|].
  intros [_ H]. discriminate H.
Qed.

(** C4 (greedy stop, amended): if the first match's token count alone
    exceeds the budget, the loop leaves the context empty and its
    accumulator at that first token count; with the budget of the
    component, a processed turn then renders the prompt with the empty
    context and asks the chat route with it. *)
Theorem first_match_over_budget_empty_context :
  forall (Vec : Type) (be : Search.Backend Vec) (st : Search.Page Vec)
         (budget : Z) (d : Search.Document) (rest : list Search.Document),
    (budget < Search.token d)%Z ->
    Search.assemble budget (Some (d :: rest)) = (Search.token d, [])
    /\ (budget = Search.tokenBudget ->
        Search.submitted (Search.inputValue st) = true ->
        Search.status
          (Search.embeddingEndpoint be
             (replaceNewlines (Search.inputValue st))) = 200%Z ->
        Search.match_documents be
          (Search.json
             (Search.embeddingEndpoint be
                (replaceNewlines (Search.inputValue st))))
          = Some (d :: rest) ->
        Search.chatPrompts (Search.turnCalls be st)
          = [Search.generatePrompt [] (Search.inputValue st)]).
Proof.
  intros Vec be st budget d rest Hd.
  assert (Ha : Search.assemble budget (Some (d :: rest))
               = (Search.token d, [])).
  { cbn [Search.assemble Search.assembleLoop]. rewrite Z.add_0_l.
    replace (Search.token d >? budget)%Z with true; [reflexivity|].
    symmetry. apply Z.gtb_lt. assumption. }
  split; [assumption|].
  intros -> Hsub Hs Hdocs.
  rewrite chatPrompts_turn; [|assumption|now rewrite Hs].
  unfold Search.turnPrompt. cbv zeta. rewrite Hdocs, Ha. reflexivity.
Qed.

Lemma first_match_over_budget_empty_context_witness :
  (1500 < Search.token Search.bigDocument)%Z
  /\ Search.assemble 1500 (Some [Search.bigDocument; Search.parisDocument])
     = (Search.token Search.bigDocument, [])
  /\ Search.chatPrompts
       (Search.turnCalls
          (Search.healthyBackend
             (Some [Search.bigDocument; Search.parisDocument]))
          (Search.freshPage (lit "flying")))
     = [Search.generatePrompt [] (lit "flying")].
Proof.
  split; [reflexivity|].
  destruct (@first_match_over_budget_empty_context unit
              (Search.healthyBackend
                 (Some [Search.bigDocument; Search.parisDocument]))
              (Search.freshPage (lit "flying"))
              1500%Z Search.bigDocument [Search.parisDocument])
    as [Ha Hp]; [reflexivity|].
  split; [exact Ha|]. apply Hp; reflexivity.
Defined.

(** C5 (order preservation): the context is the pieces of the first k
    matches, in their order, for the k such that every partial total up to
    k is within the budget and, unless all matches are in, the partial
    total with match k+1 exceeds it; no later match is used once one was
    left out. *)
Theorem context_is_ranked_prefix :
  forall (budget : Z) (ds : list Search.Document),
    exists k : nat,
      (k <= List.length ds)%nat
      /\ snd (Search.assemble budget (Some ds))
         = Search.contextOf (firstn k ds)
      /\ (forall j : nat, (1 <= j <= k)%nat ->
            (Search.sumTokens (firstn j ds) <= budget)%Z)
      /\ ((k < List.length ds)%nat ->
            (budget < Search.sumTokens (firstn (S k) ds))%Z).
Proof.
  intros budget ds. unfold Search.assemble.
  destruct (assembleLoop_prefix budget ds 0%Z [])
    as (k & Hk & Htxt & Hpre & Hstop & _).
  exists k. split; [assumption|]. split; [assumption|]. split.
  - intros j Hj. specialize (Hpre j Hj). lia.
  - intros Hlt. destruct (Hstop Hlt) as [_ Hb]. lia.
Qed.

(* ------------------------------------------------------------------ *)
(** ** Turns of the orchestrator *)

(** C10 (blank input): when the submitted text is empty or white space
    only, the turn makes no call and leaves the questions and the answers
    as they were; the page differs only by the cleared input and the
    loading flag, which is false again. *)
Theorem blank_input_is_noop :
  forall (Vec : Type) (be : Search.Backend Vec) (st : Search.Page Vec),
    allSpace (Search.inputValue st) ->
    Search.exec (Search.handleSearch be) st
    = {| Search.questions := Search.questions st;
         Search.answers := Search.answers st;
         Search.loading := false;
         Search.inputValue := [];
         Search.calls := Search.calls st |}.
Proof.
  intros Vec be st H. apply handleSearch_blank.
  now apply submitted_allSpace.
Qed.

Lemma blank_input_is_noop_witness :
  allSpace (Search.inputValue (Search.freshPage [SP; LF; TAB]))
  /\ Search.exec
       (Search.handleSearch (Search.healthyBackend (Some [Search.parisDocument])))
       (Search.freshPage [SP; LF; TAB])
     = Search.freshPage [].
Proof.
  assert (H : allSpace (Search.inputValue (Search.freshPage [SP; LF; TAB])))
    by (repeat constructor).
  split; [exact H|].
  exact (blank_input_is_noop
           (Search.healthyBackend (Some [Search.parisDocument]))
           (Search.freshPage [SP; LF; TAB]) H).
Defined.

(** C7 (embedding failure): when the embedding request of a processed
    turn answers with a status other than 200, the calls of the turn are
    the embedding request and the generic failure toast, nothing else: no
    procedure call, no chat request; no answer is added and the turn ends
    with the loading flag false. *)
Theorem embedding_failure_halts_turn :
  forall (Vec : Type) (be : Search.Backend Vec) (st : Search.Page Vec),
    Search.submitted (Search.inputValue st) = true ->
    Search.status
      (Search.embeddingEndpoint be (replaceNewlines (Search.inputValue st)))
      <> 200%Z ->
    Search.turnCalls be st
    = [Search.FetchEmbedding (replaceNewlines (Search.inputValue st));
       Search.Toast Search.toastTitle Search.defaultMessage]
    /\ Search.chatPrompts (Search.turnCalls be st) = []
    /\ Search.answers (Search.exec (Search.handleSearch be) st)
       = Search.answers st
    /\ Search.loading (Search.exec (Search.handleSearch be) st) = false.
Proof.
  intros Vec be st Hsub Hs. apply Z.eqb_neq in Hs.
  rewrite turnCalls_embedding_failed by assumption.
  rewrite handleSearch_embedding_failed by assumption.
  repeat split.
Qed.

Lemma embedding_failure_halts_turn_witness :
  Search.submitted (Search.inputValue (Search.freshPage (lit "flying"))) = true
  /\ Search.turnCalls Search.embeddingDownBackend
       (Search.freshPage (lit "flying"))
     = [Search.FetchEmbedding (lit "flying");
        Search.Toast Search.toastTitle Search.defaultMessage].
Proof.
  split; [reflexivity|].
  apply (@embedding_failure_halts_turn unit Search.embeddingDownBackend
           (Search.freshPage (lit "flying")));
    [reflexivity | discriminate].
Defined.

(** C2 (generation failure), the component at a failing input: the
    chat route answers 400 to the turn of a fresh page; the turn ends,
    its question is in the history, and there is no answer entry at its
    index, fallback or other. *)
Lemma generation_failure_leaves_no_answer :
  Search.status
    (Search.chatEndpoint Search.chatDownBackend
       (Search.turnPrompt Search.chatDownBackend (lit "flying"))) = 400%Z
  /\ Search.questions
       (Search.exec (Search.handleSearch Search.chatDownBackend)
          (Search.freshPage (lit "flying"))) = [lit "flying"]
  /\ Search.answers
       (Search.exec (Search.handleSearch Search.chatDownBackend)
          (Search.freshPage (lit "flying"))) = []
  /\ Search.loading
       (Search.exec (Search.handleSearch Search.chatDownBackend)
          (Search.freshPage (lit "flying"))) = false
  /\ ~ (exists fallback : jsstring,
          nth_error
            (Search.answers
               (Search.exec (Search.handleSearch Search.chatDownBackend)
                  (Search.freshPage (lit "flying")))) 0
          = Some fallback).
Proof.
  split; [reflexivity|].
  rewrite handleSearch_generation_failed by reflexivity.
  repeat split. intros [fallback H]. discriminate H.
Qed.

(** What this copy of the component does on every failed generation:
    the toast is raised and the turn ends (loading flag false, input
    cleared) with the question appended and the answers list as it
    was. *)
Lemma generation_failure_toasts_without_answer :
  forall (Vec : Type) (be : Search.Backend Vec) (st : Search.Page Vec),
    Search.submitted (Search.inputValue st) = true ->
    Search.status
      (Search.embeddingEndpoint be (replaceNewlines (Search.inputValue st)))
      = 200%Z ->
    Search.status
      (Search.chatEndpoint be (Search.turnPrompt be (Search.inputValue st)))
      <> 200%Z ->
    Search.answers (Search.exec (Search.handleSearch be) st)
      = Search.answers st
    /\ Search.questions (Search.exec (Search.handleSearch be) st)
       = Search.questions st ++ [Search.inputValue st]
    /\ Search.loading (Search.exec (Search.handleSearch be) st) = false
    /\ Search.inputValue (Search.exec (Search.handleSearch be) st) = []
    /\ Search.turnCalls be st
       = [Search.FetchEmbedding (replaceNewlines (Search.inputValue st));
          Search.RpcMatchDocuments
            (Search.json
               (Search.embeddingEndpoint be
                  (replaceNewlines (Search.inputValue st))))
            Search.matchThreshold Search.matchCount;
          Search.FetchChat (Search.turnPrompt be (Search.inputValue st));
          Search.Toast Search.toastTitle Search.defaultMessage].
Proof.
  intros Vec be st Hsub Hs Hc.
  apply Z.eqb_eq in Hs. apply Z.eqb_neq in Hc.
  unfold Search.turnCalls.
  rewrite handleSearch_generation_failed by assumption.
  cbn [Search.answers Search.questions Search.loading Search.inputValue
       Search.calls].
  repeat split. apply skipn_own_length.
Qed.

Lemma generation_failure_toasts_without_answer_witness :
  Search.submitted (Search.inputValue (Search.freshPage (lit "flying"))) = true
  /\ Search.answers
       (Search.exec (Search.handleSearch Search.chatDownBackend)
          (Search.freshPage (lit "flying")))
     = Search.answers (Search.freshPage (lit "flying")).
Proof.
  split; [reflexivity|].
  apply (@generation_failure_toasts_without_answer unit
           Search.chatDownBackend (Search.freshPage (lit "flying")));
    [reflexivity | reflexivity | discriminate].
Defined.

(** C6 (empty result): when the procedure returns an empty list of
    matches, a processed turn goes on: the assembled context is empty,
    the prompt is rendered from it and from the question, and the chat
    route is asked with that prompt; when the route answers 200, its
    answer is appended for the question and the turn ends with the
    loading flag false. *)
Theorem empty_matches_still_generate :
  forall (Vec : Type) (be : Search.Backend Vec) (st : Search.Page Vec),
    Search.submitted (Search.inputValue st) = true ->
    Search.status
      (Search.embeddingEndpoint be (replaceNewlines (Search.inputValue st)))
      = 200%Z ->
    Search.match_documents be
      (Search.json
         (Search.embeddingEndpoint be
            (replaceNewlines (Search.inputValue st)))) = Some [] ->
    Search.assemble Search.tokenBudget (Some []) = (0%Z, [])
    /\ Search.chatPrompts (Search.turnCalls be st)
       = [Search.generatePrompt [] (Search.inputValue st)]
    /\ ~ In (Search.Toast Search.toastTitle Search.defaultMessage)
            (firstn 3 (Search.turnCalls be st))
    /\ (Search.status
          (Search.chatEndpoint be
             (Search.generatePrompt [] (Search.inputValue st))) = 200%Z ->
        Search.answers (Search.exec (Search.handleSearch be) st)
          = Search.answers st
            ++ [Search.json
                  (Search.chatEndpoint be
                     (Search.generatePrompt [] (Search.inputValue st)))]
        /\ Search.questions (Search.exec (Search.handleSearch be) st)
           = Search.questions st ++ [Search.inputValue st]
        /\ Search.loading (Search.exec (Search.handleSearch be) st) = false
        /\ ~ In (Search.Toast Search.toastTitle Search.defaultMessage)
                (Search.turnCalls be st)).
Proof.
  intros Vec be st Hsub Hs Hdocs. apply Z.eqb_eq in Hs.
  assert (Hp : Search.turnPrompt be (Search.inputValue st)
               = Search.generatePrompt [] (Search.inputValue st)).
  { unfold Search.turnPrompt. cbv zeta. now rewrite Hdocs. }
  split; [reflexivity|]. split.
  { rewrite chatPrompts_turn by assumption. now rewrite Hp. }
  split.
  { unfold Search.turnCalls.
    destruct (Search.status
                (Search.chatEndpoint be
                   (Search.turnPrompt be (Search.inputValue st)))
              =? 200)%Z eqn:Hc.
    - rewrite handleSearch_generated by assumption.
      cbn [Search.calls]. rewrite skipn_own_length. cbn [firstn].
      intros [H|[H|[H|[]]]]; discriminate H.
    - rewrite handleSearch_generation_failed by assumption.
      cbn [Search.calls]. rewrite skipn_own_length. cbn [firstn].
      intros [H|[H|[H|[]]]]; discriminate H. }
  intros Hc. rewrite <- Hp in *. apply Z.eqb_eq in Hc.
  unfold Search.turnCalls.
  rewrite handleSearch_generated by assumption.
  cbn [Search.answers Search.questions Search.loading Search.calls].
  rewrite skipn_own_length.
  repeat split. intros [H|[H|[H|[H|[]]]]]; discriminate H.
Qed.

Lemma empty_matches_still_generate_witness :
  Search.submitted (Search.inputValue (Search.freshPage (lit "flying"))) = true
  /\ Search.chatPrompts
       (Search.turnCalls (Search.healthyBackend (Some []))
          (Search.freshPage (lit "flying")))
     = [Search.generatePrompt [] (lit "flying")]
  /\ Search.answers
       (Search.exec (Search.handleSearch (Search.healthyBackend (Some [])))
          (Search.freshPage (lit "flying")))
     = [lit "You dreamt of Paris."].
Proof.
  split; [reflexivity|].
  destruct (@empty_matches_still_generate unit
              (Search.healthyBackend (Some []))
              (Search.freshPage (lit "flying")))
    as (_ & Hp & _ & Hdone); [reflexivity | reflexivity | reflexivity |].
  split; [exact Hp|].
  destruct Hdone as (Ha & _); [reflexivity|]. exact Ha.
Defined.

(** C9 (determinism): two processed turns, on any two pages and with any
    two backends, that submit the same text and receive the same matches
    send the same prompt to the chat route: the prompt rendered from the
    context assembled from those matches under the budget and from the
    text.  Nothing else of the page or of the backend enters the context
    or the prompt. *)
Theorem same_matches_same_prompt :
  forall (Vec : Type) (be1 be2 : Search.Backend Vec)
         (st1 st2 : Search.Page Vec)
         (searchText : jsstring) (documents : option (list Search.Document)),
    Search.inputValue st1 = searchText ->
    Search.inputValue st2 = searchText ->
    Search.submitted searchText = true ->
    Search.status
      (Search.embeddingEndpoint be1 (replaceNewlines searchText)) = 200%Z ->
    Search.status
      (Search.embeddingEndpoint be2 (replaceNewlines searchText)) = 200%Z ->
    Search.match_documents be1
      (Search.json (Search.embeddingEndpoint be1 (replaceNewlines searchText)))
      = documents ->
    Search.match_documents be2
      (Search.json (Search.embeddingEndpoint be2 (replaceNewlines searchText)))
      = documents ->
    Search.chatPrompts (Search.turnCalls be1 st1)
      = Search.chatPrompts (Search.turnCalls be2 st2)
    /\ Search.chatPrompts (Search.turnCalls be1 st1)
       = [Search.generatePrompt
            (snd (Search.assemble Search.tokenBudget documents)) searchText].
Proof.
  intros Vec be1 be2 st1 st2 q docs H1 H2 Hsub Hs1 Hs2 Hd1 Hd2.
  apply Z.eqb_eq in Hs1, Hs2.
  assert (P1 : Search.chatPrompts (Search.turnCalls be1 st1)
               = [Search.generatePrompt
                    (snd (Search.assemble Search.tokenBudget docs)) q]).
  { rewrite chatPrompts_turn; rewrite ?H1; try assumption.
    unfold Search.turnPrompt. cbv zeta. now rewrite Hd1. }
  assert (P2 : Search.chatPrompts (Search.turnCalls be2 st2)
               = [Search.generatePrompt
                    (snd (Search.assemble Search.tokenBudget docs)) q]).
  { rewrite chatPrompts_turn; rewrite ?H2; try assumption.
    unfold Search.turnPrompt. cbv zeta. now rewrite Hd2. }
  split; congruence.
Qed.

Lemma same_matches_same_prompt_witness :
  Search.submitted (lit "flying") = true
  /\ Search.chatPrompts
       (Search.turnCalls Search.chatDownBackend
          (Search.freshPage (lit "flying")))
     = Search.chatPrompts
         (Search.turnCalls (Search.healthyBackend (Some [Search.parisDocument]))
            {| Search.questions := [lit "falling"];
               Search.answers := [lit "You dreamt of Paris."];
               Search.loading := true;
               Search.inputValue := lit "flying";
               Search.calls := [Search.FetchChat (lit "earlier")] |}).
Proof.
  split; [reflexivity|].
  apply (@same_matches_same_prompt unit Search.chatDownBackend
           (Search.healthyBackend (Some [Search.parisDocument]))
           (Search.freshPage (lit "flying"))
           {| Search.questions := [lit "falling"];
              Search.answers := [lit "You dreamt of Paris."];
              Search.loading := true;
              Search.inputValue := lit "flying";
              Search.calls := [Search.FetchChat (lit "earlier")] |}
           (lit "flying") (Some [Search.parisDocument]));
    reflexivity.
Defined.

(* ------------------------------------------------------------------ *)
(** ** The embedding route *)

(** C3, at a concrete input: the request succeeds, the token count was
    asked of gemini-pro and the vector of embedding-001, and no single
    model was asked for both. *)
Lemma embedding_uses_two_models :
  EmbeddingRoute.status
    (fst (EmbeddingRoute.POST EmbeddingRoute.splitClient
            EmbeddingRoute.dreamRequest)) = 200%Z
  /\ snd (EmbeddingRoute.POST EmbeddingRoute.splitClient
            EmbeddingRoute.dreamRequest)
     = [EmbeddingRoute.CountTokens (lit "gemini-pro") (lit "I was flying");
        EmbeddingRoute.EmbedContent (lit "embedding-001")
          (lit "I was flying")]
  /\ ~ (exists model : jsstring,
          snd (EmbeddingRoute.POST EmbeddingRoute.splitClient
                 EmbeddingRoute.dreamRequest)
          = [EmbeddingRoute.CountTokens model (lit "I was flying");
             EmbeddingRoute.EmbedContent model (lit "I was flying")])
  /\ ~ (exists (model : jsstring) (token : Z) (vector : list Z),
          EmbeddingRoute.body
            (fst (EmbeddingRoute.POST EmbeddingRoute.splitClient
                    EmbeddingRoute.dreamRequest))
          = EmbeddingRoute.Embedded token vector
          /\ EmbeddingRoute.countTokens EmbeddingRoute.splitClient model
               (lit "I was flying") = Some token
          /\ EmbeddingRoute.embedContent EmbeddingRoute.splitClient model
               (lit "I was flying") = Some vector).
Proof.
  split; [reflexivity|]. split; [reflexivity|]. split.
  - intros [model H]. vm_compute in H. congruence.
  - intros (model & token & vector & _ & Hc & He).
    unfold EmbeddingRoute.splitClient in Hc, He.
    cbn [EmbeddingRoute.countTokens EmbeddingRoute.embedContent] in Hc, He.
    destruct (JS.eqb model EmbeddingRoute.geminiProName) eqn:E1;
      [|discriminate Hc].
    destruct (JS.eqb model EmbeddingRoute.embeddingModelName) eqn:E2;
      [|discriminate He].
    clear Hc He.
    destruct model as [|c model]; [discriminate E1|].
    cbn in E1, E2. apply andb_prop in E1, E2.
    destruct E1 as [E1 _], E2 as [E2 _].
    apply N.eqb_eq in E1, E2. rewrite E1 in E2. discriminate E2.
Qed.

(** C3 (embedding result, amended): whenever the route answers 200, its
    body holds the token count that the gemini-pro model counted for the
    request text and the vector that the embedding-001 model produced for
    the same text; these are the only two calls made, on two different
    models, both fixed in the route. *)
Theorem embedding_result_from_fixed_models :
  forall (Vec : Type) (genAI : EmbeddingRoute.GenAI Vec)
         (req : EmbeddingRoute.Request),
    EmbeddingRoute.status (fst (EmbeddingRoute.POST genAI req)) = 200%Z ->
    exists (t : jsstring) (token : Z) (vector : Vec),
      EmbeddingRoute.text req = Some t
      /\ EmbeddingRoute.body (fst (EmbeddingRoute.POST genAI req))
         = EmbeddingRoute.Embedded token vector
      /\ EmbeddingRoute.countTokens genAI EmbeddingRoute.geminiProName t
         = Some token
      /\ EmbeddingRoute.embedContent genAI
           EmbeddingRoute.embeddingModelName t = Some vector
      /\ snd (EmbeddingRoute.POST genAI req)
         = [EmbeddingRoute.CountTokens EmbeddingRoute.geminiProName t;
            EmbeddingRoute.EmbedContent EmbeddingRoute.embeddingModelName t]
      /\ EmbeddingRoute.geminiProName <> EmbeddingRoute.embeddingModelName.
Proof.
  intros Vec genAI req. unfold EmbeddingRoute.POST.
  destruct (EmbeddingRoute.userData req); cbn [negb];
    [|cbn; discriminate].
  destruct (EmbeddingRoute.text req) as [[|c t]|]; try (cbn; discriminate).
  destruct (EmbeddingRoute.countTokens genAI EmbeddingRoute.geminiProName
              (c :: t)) as [token|] eqn:Hc; [|cbn; discriminate].
  destruct (EmbeddingRoute.embedContent genAI
              EmbeddingRoute.embeddingModelName (c :: t))
    as [vector|] eqn:He; [|cbn; discriminate].
  intros _. exists (c :: t), token, vector.
  cbn [fst snd EmbeddingRoute.body].
  repeat split; try assumption. discriminate.
Qed.

Lemma embedding_result_from_fixed_models_witness :
  EmbeddingRoute.status
    (fst (EmbeddingRoute.POST EmbeddingRoute.splitClient
            EmbeddingRoute.dreamRequest)) = 200%Z
  /\ exists (t : jsstring) (token : Z) (vector : list Z),
      EmbeddingRoute.text EmbeddingRoute.dreamRequest = Some t
      /\ EmbeddingRoute.body
           (fst (EmbeddingRoute.POST EmbeddingRoute.splitClient
                   EmbeddingRoute.dreamRequest))
         = EmbeddingRoute.Embedded token vector
      /\ EmbeddingRoute.countTokens EmbeddingRoute.splitClient
           EmbeddingRoute.geminiProName t = Some token
      /\ EmbeddingRoute.embedContent EmbeddingRoute.splitClient
           EmbeddingRoute.embeddingModelName t = Some vector
      /\ snd (EmbeddingRoute.POST EmbeddingRoute.splitClient
                EmbeddingRoute.dreamRequest)
         = [EmbeddingRoute.CountTokens EmbeddingRoute.geminiProName t;
            EmbeddingRoute.EmbedContent EmbeddingRoute.embeddingModelName t]
      /\ EmbeddingRoute.geminiProName <> EmbeddingRoute.embeddingModelName.
Proof.
  split; [reflexivity|].
  apply (@embedding_result_from_fixed_models (list Z)
           EmbeddingRoute.splitClient EmbeddingRoute.dreamRequest).
  reflexivity.
Defined.

(* ------------------------------------------------------------------ *)
(** ** More on the assembly loop *)

Section AssemblyMore.

Import Search.
Local Open Scope Z_scope.

Lemma separator_visible : forall s t : jsstring, s ++ t ++ separator <> [].
Proof.
  intros s t H. apply app_eq_nil in H. destruct H as [_ H].
  apply app_eq_nil in H. destruct H as [_ H]. discriminate H.
Qed.

(** With tokens that are not negative and a total within the budget, the
    loop runs to the end. *)
Lemma assembleLoop_all budget ds :
  Forall (fun d => 0 <= token d) ds ->
  forall tokenCount contextText,
    tokenCount + sumTokens ds <= budget ->
    assembleLoop budget ds tokenCount contextText
    = (tokenCount + sumTokens ds, contextText ++ contextOf ds).
Proof.
  induction 1 as [|d ds Hd Hds IH]; intros tc ctx Hsum.
  - cbn. now rewrite Z.add_0_r, app_nil_r.
  - cbn [assembleLoop]. cbn [sumTokens fold_right] in Hsum.
    fold (sumTokens ds) in Hsum.
    assert (Hnn : 0 <= sumTokens ds).
    { clear -Hds. induction Hds as [|e es He _ IHe]; cbn; [lia|].
      fold (sumTokens es). lia. }
    replace (tc + token d >? budget) with false
      by (symmetry; rewrite Z.gtb_ltb; apply Z.ltb_ge; lia).
    rewrite IH by lia.
    cbn [sumTokens fold_right contextOf flat_map].
    fold (sumTokens ds). fold (contextOf ds).
    f_equal; [lia|]. now rewrite <- !app_assoc.
Qed.

(** A larger budget keeps what a smaller one gave and may add to it. *)
Lemma assembleLoop_budget_mono small large ds :
  small <= large ->
  forall tokenCount contextText,
  exists more : jsstring,
    snd (assembleLoop large ds tokenCount contextText)
    = snd (assembleLoop small ds tokenCount contextText) ++ more.
Proof.
  intros Hle. induction ds as [|d ds IH]; intros tc ctx.
  - exists []. cbn. now rewrite app_nil_r.
  - cbn [assembleLoop].
    destruct (tc + token d >? small) eqn:Hs.
    + cbn [snd].
      destruct (assembleLoop_prefix large (d :: ds) tc ctx)
        as (k & _ & Htxt & _).
      cbn [assembleLoop] in Htxt. rewrite Htxt. eexists. reflexivity.
    + rewrite Z.gtb_ltb, Z.ltb_ge in Hs.
      replace (tc + token d >? large) with false
        by (symmetry; rewrite Z.gtb_ltb; apply Z.ltb_ge; lia).
      apply IH.
Qed.

End AssemblyMore.

(** X1 (empty context, both ways): the assembled context is the empty
    string exactly when there is no match at all or the first match alone
    is over the budget. *)
Theorem context_empty_iff :
  forall (budget : Z) (ds : list Search.Document),
    snd (Search.assemble budget (Some ds)) = []
    <-> ds = [] \/ exists d rest, ds = d :: rest /\ (budget < Search.token d)%Z.
Proof.
  intros budget ds. unfold Search.assemble. split.
  - intros H. destruct ds as [|d rest]; [now left|]. right. exists d, rest.
    split; [reflexivity|].
    cbn [Search.assembleLoop] in H. rewrite Z.add_0_l in H.
    destruct (Search.token d >? budget)%Z eqn:Hgt.
    + now apply Z.gtb_lt in Hgt.
    + exfalso.
      destruct (assembleLoop_prefix budget rest (Search.token d)
                  ([] ++ trim (Search.content d) ++ Search.separator))
        as (k & _ & Htxt & _).
      rewrite Htxt in H. apply app_eq_nil in H. destruct H as [H _].
      now apply separator_visible in H.
  - intros [->|(d & rest & -> & Hd)]; [reflexivity|].
    cbn [Search.assembleLoop]. rewrite Z.add_0_l.
    replace (Search.token d >? budget)%Z with true; [reflexivity|].
    symmetry. now apply Z.gtb_lt.
Qed.

(** X2 (a larger budget never drops a passage): for budgets B <= B', the
    context assembled under B' starts with the context assembled under B,
    for the same matches. *)
Theorem larger_budget_extends_context :
  forall (small large : Z) (documents : option (list Search.Document)),
    (small <= large)%Z ->
    exists more : jsstring,
      snd (Search.assemble large documents)
      = snd (Search.assemble small documents) ++ more.
Proof.
  intros small large [ds|] Hle; cbn [Search.assemble].
  - now apply assembleLoop_budget_mono.
  - exists []. reflexivity.
Qed.

Lemma larger_budget_extends_context_witness :
  (8 <= 1500)%Z
  /\ exists more : jsstring,
      snd (Search.assemble 1500
             (Some [Search.parisDocument; Search.parisDocument]))
      = snd (Search.assemble 8
               (Some [Search.parisDocument; Search.parisDocument])) ++ more.
Proof.
  split; [lia|].
  apply (@larger_budget_extends_context 8%Z 1500%Z
           (Some [Search.parisDocument; Search.parisDocument])).
  lia.
Defined.

(** X3 (everything fits): when no token count is negative and the token
    counts of all matches total at most the budget, every match is in the
    context, in order, and the accumulator ends at that total. *)
Theorem all_matches_included_when_total_fits :
  forall (budget : Z) (ds : list Search.Document),
    Forall (fun d => (0 <= Search.token d)%Z) ds ->
    (Search.sumTokens ds <= budget)%Z ->
    Search.assemble budget (Some ds)
    = (Search.sumTokens ds, Search.contextOf ds).
Proof.
  intros budget ds Hnn Hsum. unfold Search.assemble.
  rewrite assembleLoop_all by (assumption || lia).
  reflexivity.
Qed.

Lemma all_matches_included_when_total_fits_witness :
  Forall (fun d => (0 <= Search.token d)%Z)
    [Search.parisDocument; Search.parisDocument]
  /\ (Search.sumTokens [Search.parisDocument; Search.parisDocument] <= 1500)%Z
  /\ Search.assemble 1500 (Some [Search.parisDocument; Search.parisDocument])
     = (16%Z,
        Search.contextOf [Search.parisDocument; Search.parisDocument]).
Proof.
  assert (H1 : Forall (fun d => (0 <= Search.token d)%Z)
                 [Search.parisDocument; Search.parisDocument])
    by (repeat constructor; discriminate).
  assert (H2 : (Search.sumTokens [Search.parisDocument; Search.parisDocument]
                <= 1500)%Z) by (vm_compute; discriminate).
  split; [exact H1|]. split; [exact H2|].
  exact (all_matches_included_when_total_fits H1 H2).
Defined.

(* ------------------------------------------------------------------ *)
(** ** More on the prompt *)

(** X4 (the prompt tells questions and contexts apart, one at a time):
    for a fixed context two different questions give two different
    prompts, and for a fixed question two different contexts do. *)
Theorem generatePrompt_injective_each :
  forall c c' q q' : jsstring,
    (Search.generatePrompt c q = Search.generatePrompt c q' -> q = q')
    /\ (Search.generatePrompt c q = Search.generatePrompt c' q -> c = c').
Proof.
  intros c c' q q'. rewrite !generatePrompt_layout. unfold Search.promptLayout.
  split; intros H.
  - do 4 apply app_inv_head in H. now apply app_inv_tail in H.
  - do 2 apply app_inv_head in H.
    rewrite !(app_assoc _ Search.questionHeader) in H.
    rewrite !app_assoc in H. do 3 apply app_inv_tail in H. exact H.
Qed.

(** X5 (nothing is escaped): a context that holds the question header
    gives the same prompt as the shorter context with the rest moved into
    the question; the prompt alone does not say where the context ends. *)
Theorem generatePrompt_header_not_escaped :
  forall a b c : jsstring,
    Search.generatePrompt (a ++ Search.questionHeader ++ b) c
    = Search.generatePrompt a (b ++ Search.questionHeader ++ c).
Proof.
  intros a b c. rewrite !generatePrompt_layout. unfold Search.promptLayout.
  now rewrite <- !app_assoc.
Qed.

(* ------------------------------------------------------------------ *)
(** ** Turns, sessions and what the page shows *)

Section TurnShape.

Import Search.
Variable Vec : Type.
Implicit Types (be : Backend Vec) (st : Page Vec).

(** Whatever the backend does, a turn appends: the question when the text
    is processed, at most one answer and only then, and calls. *)
Lemma handleSearch_effect be st :
  exists (newAnswers : list jsstring) (newCalls : list (Event Vec)),
    exec (handleSearch be) st
    = {| questions := questions st
                      ++ (if submitted (inputValue st)
                          then [inputValue st] else []);
         answers := answers st ++ newAnswers;
         loading := false; inputValue := [];
         calls := calls st ++ newCalls |}
    /\ (List.length newAnswers
        <= List.length (if submitted (inputValue st)
                        then [inputValue st] else []))%nat.
Proof.
  destruct (submitted (inputValue st)) eqn:Hsub.
  - destruct (status (embeddingEndpoint be (replaceNewlines (inputValue st)))
              =? 200)%Z eqn:Hs.
    + destruct (status (chatEndpoint be (turnPrompt be (inputValue st)))
                =? 200)%Z eqn:Hc.
      * rewrite handleSearch_generated by assumption.
        eexists [_], _. split; [reflexivity|]. cbn. lia.
      * rewrite handleSearch_generation_failed by assumption.
        eexists [], _. rewrite app_nil_r. split; [reflexivity|]. cbn. lia.
    + rewrite handleSearch_embedding_failed by assumption.
      eexists [], _. rewrite app_nil_r. split; [reflexivity|]. cbn. lia.
  - rewrite handleSearch_blank by assumption.
    exists [], []. rewrite !app_nil_r. split; [reflexivity|]. cbn. lia.
Qed.

Lemma replaceNewlines_no_LF (s : jsstring) : ~ In LF (replaceNewlines s).
Proof.
  unfold replaceNewlines. intros H. apply in_map_iff in H.
  destruct H as (c & Hc & _).
  destruct (c =? LF)%N eqn:E; [discriminate Hc|].
  apply N.eqb_neq in E. now apply E.
Qed.

Lemma submitted_replaceNewlines (s : jsstring) :
  submitted s = true -> replaceNewlines s <> [].
Proof.
  destruct s as [|c s]; [discriminate|]. intros _ H. discriminate H.
Qed.

(** The first call of a processed turn. *)
Lemma turnCalls_head be st :
  submitted (inputValue st) = true ->
  exists rest,
    turnCalls be st
    = FetchEmbedding (replaceNewlines (inputValue st)) :: rest.
Proof.
  intros Hsub. unfold turnCalls.
  destruct (status (embeddingEndpoint be (replaceNewlines (inputValue st)))
            =? 200)%Z eqn:Hs.
  - destruct (status (chatEndpoint be (turnPrompt be (inputValue st)))
              =? 200)%Z eqn:Hc.
    + rewrite handleSearch_generated by assumption.
      cbn [calls]. rewrite skipn_own_length. eexists. reflexivity.
    + rewrite handleSearch_generation_failed by assumption.
      cbn [calls]. rewrite skipn_own_length. eexists. reflexivity.
  - rewrite handleSearch_embedding_failed by assumption.
    cbn [calls]. rewrite skipn_own_length. eexists. reflexivity.
Qed.

End TurnShape.

(** X7 (what is embedded, what is kept): in a processed turn the text
    sent to the embedding route is the typed text with every line feed
    turned into a space, so it has the same length and holds no line
    feed; the question kept in the history is the typed text itself. *)
Theorem embedding_request_has_no_line_feed :
  forall (Vec : Type) (be : Search.Backend Vec) (st : Search.Page Vec),
    Search.submitted (Search.inputValue st) = true ->
    exists (sent : jsstring) (rest : list (Search.Event Vec)),
      Search.turnCalls be st = Search.FetchEmbedding sent :: rest
      /\ ~ In LF sent
      /\ List.length sent = List.length (Search.inputValue st)
      /\ (forall i c, nth_error (Search.inputValue st) i = Some c ->
            nth_error sent i = Some (if (c =? LF)%N then SP else c))
      /\ Search.questions (Search.exec (Search.handleSearch be) st)
         = Search.questions st ++ [Search.inputValue st].
Proof.
  intros Vec be st Hsub.
  destruct (turnCalls_head be st Hsub) as [rest Hrest].
  exists (replaceNewlines (Search.inputValue st)), rest.
  split; [exact Hrest|]. split; [apply replaceNewlines_no_LF|].
  split; [apply length_map|]. split.
  - intros i c Hi. unfold replaceNewlines.
    rewrite nth_error_map, Hi. reflexivity.
  - destruct (handleSearch_effect be st) as (na & nc & -> & _).
    cbn. now rewrite Hsub.
Qed.

Lemma embedding_request_has_no_line_feed_witness :
  Search.submitted
    (Search.inputValue (Search.freshPage (lit "fly" ++ LF :: lit "ing")))
  = true
  /\ exists (sent : jsstring) (rest : list (Search.Event unit)),
      Search.turnCalls (Search.healthyBackend (Some []))
        (Search.freshPage (lit "fly" ++ LF :: lit "ing"))
      = Search.FetchEmbedding sent :: rest
      /\ ~ In LF sent.
Proof.
  split; [reflexivity|].
  destruct (@embedding_request_has_no_line_feed unit
              (Search.healthyBackend (Some []))
              (Search.freshPage (lit "fly" ++ LF :: lit "ing")))
    as (sent & rest & H1 & H2 & _); [reflexivity|].
  exists sent, rest. split; [exact H1 | exact H2].
Defined.

Section SessionFacts.

Import Search SearchView.
Variable Vec : Type.
Implicit Types (be : Backend Vec) (st : Page Vec).

Lemma submit_effect be text st :
  exists (newAnswers : list jsstring),
    questions (submit be text st)
    = questions st ++ (if submitted text then [text] else [])
    /\ answers (submit be text st) = answers st ++ newAnswers
    /\ (List.length newAnswers
        <= List.length (if submitted text then [text] else []))%nat
    /\ loading (submit be text st) = false.
Proof.
  unfold submit.
  destruct (handleSearch_effect be (typeInto text st))
    as (na & nc & -> & Hlen).
  exists na. cbn in *. repeat split; assumption.
Qed.

Lemma session_cons be text texts st :
  session be (text :: texts) st = session be texts (submit be text st).
Proof. reflexivity. Qed.

Lemma renderFrom_length st index qs :
  List.length (renderFrom st index qs) = List.length qs.
Proof.
  revert index. induction qs as [|q qs IH]; intros index; cbn; auto.
Qed.

Lemma renderFrom_app st index qs qs' :
  renderFrom st index (qs ++ qs')
  = renderFrom st index qs
    ++ renderFrom st (index + List.length qs) qs'.
Proof.
  revert index. induction qs as [|q qs IH]; intros index; cbn [app renderFrom].
  - cbn. now rewrite Nat.add_0_r.
  - rewrite IH. cbn [List.length app].
    now rewrite Nat.add_succ_comm.
Qed.

(** The blocks read the answers at the indices of the questions only. *)
Lemma renderFrom_ext st st' index qs :
  loading st = loading st' ->
  (forall j, (index <= j < index + List.length qs)%nat ->
     nth_error (answers st) j = nth_error (answers st') j) ->
  renderFrom st index qs = renderFrom st' index qs.
Proof.
  intros Hl. revert index. induction qs as [|q qs IH]; intros index Hj.
  - reflexivity.
  - cbn [renderFrom]. rewrite Hl. rewrite (Hj index) by (cbn; lia).
    f_equal. apply IH. intros j Hr. apply Hj. cbn [List.length]. lia.
Qed.

Lemma renderFrom_settled st index qs :
  loading st = false ->
  Forall (fun block => snd block <> LoadingText) (renderFrom st index qs).
Proof.
  intros Hl. revert index. induction qs as [|q qs IH]; intros index.
  - constructor.
  - cbn [renderFrom]. rewrite Hl. constructor; [cbn; discriminate|apply IH].
Qed.

End SessionFacts.

(** X8 (the history of questions): after any number of turns against any
    backend, the questions shown are the earlier ones followed by exactly
    the texts that were processed (not empty, not blank), in the order
    they were submitted; a failing backend never removes or reorders
    one. *)
Theorem session_questions_are_processed_texts :
  forall (Vec : Type) (be : Search.Backend Vec) (texts : list jsstring)
         (st : Search.Page Vec),
    Search.questions (SearchView.session be texts st)
    = Search.questions st ++ filter Search.submitted texts.
Proof.
  intros Vec be texts. induction texts as [|t texts IH]; intros st.
  - cbn. now rewrite app_nil_r.
  - rewrite session_cons, IH.
    destruct (submit_effect be t st) as (na & -> & _).
    cbn [filter]. destruct (Search.submitted t); cbn.
    + now rewrite <- app_assoc.
    + now rewrite app_nil_r.
Qed.

(** X9 (answers never outnumber questions): if the page has at most as
    many answers as questions, it still has after any number of turns
    against any backend. *)
Theorem session_answers_never_outnumber_questions :
  forall (Vec : Type) (be : Search.Backend Vec) (texts : list jsstring)
         (st : Search.Page Vec),
    (List.length (Search.answers st) <= List.length (Search.questions st))%nat ->
    (List.length (Search.answers (SearchView.session be texts st))
     <= List.length (Search.questions (SearchView.session be texts st)))%nat.
Proof.
  intros Vec be texts. induction texts as [|t texts IH]; intros st Hle.
  - exact Hle.
  - rewrite session_cons. apply IH.
    destruct (submit_effect be t st) as (na & -> & -> & Hna & _).
    rewrite !length_app. lia.
Qed.

Lemma session_answers_never_outnumber_questions_witness :
  (List.length (Search.answers (Search.freshPage []))
   <= List.length (Search.questions (Search.freshPage [])))%nat
  /\ (List.length
        (Search.answers
           (SearchView.session (SearchView.moodyBackend (lit "falling"))
              [lit "falling"; lit "  "; lit "flying"] (Search.freshPage [])))
      <= List.length
           (Search.questions
              (SearchView.session (SearchView.moodyBackend (lit "falling"))
                 [lit "falling"; lit "  "; lit "flying"]
                 (Search.freshPage []))))%nat.
Proof.
  assert (H : (List.length (Search.answers (Search.freshPage []))
               <= List.length (Search.questions (Search.freshPage [])))%nat)
    by (cbn; lia).
  split; [exact H|].
  exact (session_answers_never_outnumber_questions
           (SearchView.moodyBackend (lit "falling"))
           [lit "falling"; lit "  "; lit "flying"] (Search.freshPage []) H).
Defined.

(** X11 (a successful turn on an aligned page): when the page is idle
    and has as many answers as questions, a processed turn whose two
    requests answer 200 leaves the earlier blocks as they were and adds
    one block, the question with the answer of the chat route. *)
Theorem successful_turn_adds_paired_block :
  forall (Vec : Type) (be : Search.Backend Vec) (st : Search.Page Vec),
    Search.loading st = false ->
    List.length (Search.answers st) = List.length (Search.questions st) ->
    Search.submitted (Search.inputValue st) = true ->
    Search.status
      (Search.embeddingEndpoint be (replaceNewlines (Search.inputValue st)))
      = 200%Z ->
    Search.status
      (Search.chatEndpoint be (Search.turnPrompt be (Search.inputValue st)))
      = 200%Z ->
    SearchView.render (Search.exec (Search.handleSearch be) st)
    = SearchView.render st
      ++ [(Search.inputValue st,
           SearchView.AnswerText
             (Some (Search.json
                      (Search.chatEndpoint be
                         (Search.turnPrompt be (Search.inputValue st))))))].
Proof.
  intros Vec be st Hl Hlen Hsub Hs Hc.
  apply Z.eqb_eq in Hs, Hc.
  rewrite handleSearch_generated by assumption.
  unfold SearchView.render. cbn [Search.questions].
  rewrite renderFrom_app. f_equal.
  - apply renderFrom_ext; [now rewrite Hl|].
    intros j Hj. cbn [Search.answers].
    rewrite nth_error_app1 by lia. reflexivity.
  - cbn [SearchView.renderFrom Search.answers Search.loading andb].
    rewrite Nat.add_0_l, <- Hlen, nth_error_app2 by lia.
    now rewrite Nat.sub_diag.
Qed.

Lemma successful_turn_adds_paired_block_witness :
  Search.loading (Search.freshPage (lit "flying")) = false
  /\ SearchView.render
       (Search.exec (Search.handleSearch (Search.healthyBackend (Some [])))
          (Search.freshPage (lit "flying")))
     = [(lit "flying",
         SearchView.AnswerText (Some (lit "You dreamt of Paris.")))].
Proof.
  split; [reflexivity|].
  apply (@successful_turn_adds_paired_block unit
           (Search.healthyBackend (Some []))
           (Search.freshPage (lit "flying")));
    reflexivity.
Defined.

(** X12 (a failed generation shifts the later answers): on an aligned
    page, a processed turn whose chat request fails followed by a
    processed turn that succeeds ends with two new blocks: the first
    question shown with the answer to the second, and the second question
    shown without an answer. *)
Theorem answer_after_failed_turn_is_shown_under_failed_question :
  forall (Vec : Type) (be1 be2 : Search.Backend Vec) (st : Search.Page Vec)
         (q1 q2 : jsstring),
    List.length (Search.answers st) = List.length (Search.questions st) ->
    Search.submitted q1 = true ->
    Search.submitted q2 = true ->
    Search.status (Search.embeddingEndpoint be1 (replaceNewlines q1))
      = 200%Z ->
    Search.status (Search.chatEndpoint be1 (Search.turnPrompt be1 q1))
      <> 200%Z ->
    Search.status (Search.embeddingEndpoint be2 (replaceNewlines q2))
      = 200%Z ->
    Search.status (Search.chatEndpoint be2 (Search.turnPrompt be2 q2))
      = 200%Z ->
    skipn (List.length (Search.questions st))
      (SearchView.render
         (SearchView.submit be2 q2 (SearchView.submit be1 q1 st)))
    = [(q1,
        SearchView.AnswerText
          (Some (Search.json
                   (Search.chatEndpoint be2 (Search.turnPrompt be2 q2)))));
       (q2, SearchView.AnswerText None)].
Proof.
  intros Vec be1 be2 st q1 q2 Hlen H1 H2 Hs1 Hc1 Hs2 Hc2.
  apply Z.eqb_eq in Hs1, Hs2, Hc2. apply Z.eqb_neq in Hc1.
  unfold SearchView.submit.
  rewrite (@handleSearch_generation_failed Vec be1 (SearchView.typeInto q1 st))
    by assumption.
  cbn [SearchView.typeInto Search.questions Search.answers Search.loading
       Search.inputValue Search.calls].
  rewrite handleSearch_generated by assumption.
  unfold SearchView.render.
  cbn [SearchView.typeInto Search.questions Search.answers Search.loading
       Search.inputValue Search.calls].
  rewrite <- app_assoc, renderFrom_app.
  match goal with
  | |- context [SearchView.renderFrom ?s O (Search.questions st)] =>
      rewrite <- (renderFrom_length s O (Search.questions st)) at 1
  end.
  rewrite skipn_own_length.
  cbn [SearchView.renderFrom Search.answers Search.loading andb app].
  rewrite Nat.add_0_l, <- Hlen.
  rewrite nth_error_app2 by lia. rewrite Nat.sub_diag.
  rewrite nth_error_app2 by lia.
  replace (S (List.length (Search.answers st))
           - List.length (Search.answers st))%nat with 1%nat by lia.
  reflexivity.
Qed.

Lemma answer_after_failed_turn_is_shown_under_failed_question_witness :
  Search.submitted (lit "falling") = true
  /\ Search.status
       (Search.chatEndpoint (SearchView.moodyBackend (lit "falling"))
          (Search.turnPrompt (SearchView.moodyBackend (lit "falling"))
             (lit "falling"))) <> 200%Z
  /\ skipn (List.length (Search.questions (Search.freshPage [])))
       (SearchView.render
          (SearchView.submit (SearchView.moodyBackend (lit "falling"))
             (lit "flying")
             (SearchView.submit (SearchView.moodyBackend (lit "falling"))
                (lit "falling") (Search.freshPage []))))
     = [(lit "falling",
         SearchView.AnswerText
           (Some (Search.json
                    (Search.chatEndpoint
                       (SearchView.moodyBackend (lit "falling"))
                       (Search.turnPrompt
                          (SearchView.moodyBackend (lit "falling"))
                          (lit "flying"))))));
        (lit "flying", SearchView.AnswerText None)].
Proof.
  assert (Hc1 : Search.status
                  (Search.chatEndpoint
                     (SearchView.moodyBackend (lit "falling"))
                     (Search.turnPrompt
                        (SearchView.moodyBackend (lit "falling"))
                        (lit "falling"))) <> 200%Z)
    by (vm_compute; discriminate).
  assert (Hc2 : Search.status
                  (Search.chatEndpoint
                     (SearchView.moodyBackend (lit "falling"))
                     (Search.turnPrompt
                        (SearchView.moodyBackend (lit "falling"))
                        (lit "flying"))) = 200%Z)
    by (vm_compute; reflexivity).
  split; [reflexivity|]. split; [exact Hc1|].
  exact (@answer_after_failed_turn_is_shown_under_failed_question unit
           (SearchView.moodyBackend (lit "falling"))
           (SearchView.moodyBackend (lit "falling"))
           (Search.freshPage []) (lit "falling") (lit "flying")
           eq_refl eq_refl eq_refl eq_refl Hc1 eq_refl Hc2).
Defined.

(* ------------------------------------------------------------------ *)
(** ** The two routes *)

Lemma eqb_eq (a b : jsstring) : JS.eqb a b = true <-> a = b.
Proof.
  revert b. induction a as [|x a IH]; intros [|y b]; cbn;
    try (split; [discriminate|discriminate]); [tauto|].
  rewrite andb_true_iff, N.eqb_eq, IH. split.
  - intros [-> ->]. reflexivity.
  - intros H. injection H as -> ->. auto.
Qed.

(** X13 (the client is reached only with data and a text): if the
    embedding route made any call on the generative-AI client, [getUser]
    had given a truthy [data] (the route tests [data], not [data.user])
    and the body held a text that is not empty; the first call counts the
    tokens of that text, and the embedding is asked for only for that
    same text and only once its tokens have been counted. *)
Theorem embedding_route_calls_need_session_and_text :
  forall (Vec : Type) (genAI : EmbeddingRoute.GenAI Vec)
         (req : EmbeddingRoute.Request),
    snd (EmbeddingRoute.POST genAI req) <> [] ->
    EmbeddingRoute.userData req = true
    /\ exists t : jsstring,
         EmbeddingRoute.text req = Some t /\ t <> []
         /\ hd_error (snd (EmbeddingRoute.POST genAI req))
            = Some (EmbeddingRoute.CountTokens EmbeddingRoute.geminiProName t)
         /\ (forall model t',
               In (EmbeddingRoute.EmbedContent model t')
                  (snd (EmbeddingRoute.POST genAI req)) ->
               t' = t
               /\ EmbeddingRoute.countTokens genAI
                    EmbeddingRoute.geminiProName t <> None).
Proof.
  intros Vec genAI req. unfold EmbeddingRoute.POST.
  destruct (EmbeddingRoute.userData req); cbn [negb];
    [|intros H; now contradiction H].
  destruct (EmbeddingRoute.text req) as [[|c t]|];
    try (intros H; now contradiction H).
  intros _. split; [reflexivity|]. exists (c :: t).
  split; [reflexivity|]. split; [discriminate|].
  destruct (EmbeddingRoute.countTokens genAI EmbeddingRoute.geminiProName
              (c :: t)) as [token|].
  - destruct (EmbeddingRoute.embedContent genAI
                EmbeddingRoute.embeddingModelName (c :: t)) as [e|];
      (split; [reflexivity|]);
      intros model t' [H|[H|[]]]; try discriminate H;
      injection H as _ <-; (split; [reflexivity|discriminate]).
  - split; [reflexivity|]. intros model t' [H|[]]. discriminate H.
Qed.

Lemma embedding_route_calls_need_session_and_text_witness :
  snd (EmbeddingRoute.POST EmbeddingRoute.splitClient
         EmbeddingRoute.dreamRequest) <> []
  /\ EmbeddingRoute.userData EmbeddingRoute.dreamRequest = true.
Proof.
  assert (H : snd (EmbeddingRoute.POST EmbeddingRoute.splitClient
                     EmbeddingRoute.dreamRequest) <> [])
    by (vm_compute; discriminate).
  split; [exact H|].
  exact (proj1 (@embedding_route_calls_need_session_and_text (list Z)
                  EmbeddingRoute.splitClient EmbeddingRoute.dreamRequest H)).
Defined.

(** The statuses of the embedding route on a parsed request: 403, 422,
    500 or 200; 200 exactly when [data] is truthy, the text is not empty
    and both calls on the client succeed, and only then does the body
    carry a token count and an embedding; 403 exactly when [data] is
    falsy. *)
Lemma embedding_route_status_cases :
  forall (Vec : Type) (genAI : EmbeddingRoute.GenAI Vec)
         (req : EmbeddingRoute.Request),
    let r := fst (EmbeddingRoute.POST genAI req) in
    (EmbeddingRoute.status r = 403%Z \/ EmbeddingRoute.status r = 422%Z
     \/ EmbeddingRoute.status r = 500%Z \/ EmbeddingRoute.status r = 200%Z)
    /\ (EmbeddingRoute.status r = 200%Z
        <-> EmbeddingRoute.userData req = true
            /\ exists t token vector,
                 EmbeddingRoute.text req = Some t /\ t <> []
                 /\ EmbeddingRoute.countTokens genAI
                      EmbeddingRoute.geminiProName t = Some token
                 /\ EmbeddingRoute.embedContent genAI
                      EmbeddingRoute.embeddingModelName t = Some vector)
    /\ (EmbeddingRoute.status r = 200%Z
        <-> exists token vector,
              EmbeddingRoute.body r = EmbeddingRoute.Embedded token vector)
    /\ (EmbeddingRoute.status r = 403%Z
        <-> EmbeddingRoute.userData req = false).
Proof.
  intros Vec genAI req. unfold EmbeddingRoute.POST.
  destruct (EmbeddingRoute.userData req); cbn [negb].
  2:{ cbn [fst snd EmbeddingRoute.status EmbeddingRoute.body]. split; [auto|]. split; [|split].
      - split; [discriminate|]. intros [H _]. discriminate H.
      - split; [discriminate|]. intros (? & ? & H). discriminate H.
      - tauto. }
  destruct (EmbeddingRoute.text req) as [[|c t]|].
  - cbn [fst snd EmbeddingRoute.status EmbeddingRoute.body]. split; [auto|]. split; [|split].
    + split; [discriminate|]. intros [_ (? & ? & ? & H & Hn & _)].
      injection H as H; subst. now contradiction Hn.
    + split; [discriminate|]. intros (? & ? & H). discriminate H.
    + split; discriminate.
  - destruct (EmbeddingRoute.countTokens genAI EmbeddingRoute.geminiProName
                (c :: t)) as [token|] eqn:Hc.
    + destruct (EmbeddingRoute.embedContent genAI
                  EmbeddingRoute.embeddingModelName (c :: t))
        as [e|] eqn:He.
      * cbn [fst snd EmbeddingRoute.status EmbeddingRoute.body]. split; [auto|]. split; [|split].
        -- split; [|reflexivity]. intros _. split; [reflexivity|].
           exists (c :: t), token, e. repeat split; try assumption.
           discriminate.
        -- split; [|reflexivity]. intros _. now exists token, e.
        -- split; discriminate.
      * cbn [fst snd EmbeddingRoute.status EmbeddingRoute.body]. split; [auto|]. split; [|split].
        -- split; [discriminate|].
           intros [_ (? & ? & ? & H & _ & _ & He')].
           injection H as H; subst; congruence.
        -- split; [discriminate|]. intros (? & ? & H). discriminate H.
        -- split; discriminate.
    + cbn [fst snd EmbeddingRoute.status EmbeddingRoute.body]. split; [auto|]. split; [|split].
      * split; [discriminate|].
        intros [_ (? & ? & ? & H & _ & Hc' & _)].
        injection H as H; subst; congruence.
      * split; [discriminate|]. intros (? & ? & H). discriminate H.
      * split; discriminate.
  - cbn [fst snd EmbeddingRoute.status EmbeddingRoute.body]. split; [auto|]. split; [|split].
    + split; [discriminate|]. intros [_ (? & ? & ? & H & _)]. discriminate H.
    + split; [discriminate|]. intros (? & ? & H). discriminate H.
    + split; discriminate.
Qed.

(** The statuses of the chat route on a parsed request: 403, 400 or
    200; 200 exactly when [data] is truthy and the gemini-pro model
    generates for the prompt of the body, and then the body carries that
    text; the client is called once when [data] is truthy, prompt or no
    prompt, and not otherwise. *)
Lemma chat_route_status_cases :
  forall (genAI : ChatRoute.GenAI) (req : ChatRoute.Request),
    let r := fst (ChatRoute.POST genAI req) in
    (ChatRoute.status r = 403%Z \/ ChatRoute.status r = 400%Z
     \/ ChatRoute.status r = 200%Z)
    /\ (ChatRoute.status r = 200%Z
        <-> ChatRoute.userData req = true
            /\ exists text,
                 ChatRoute.generateContent genAI ChatRoute.geminiProName
                   (ChatRoute.prompt req) = Some text
                 /\ ChatRoute.body r = ChatRoute.Choices text)
    /\ snd (ChatRoute.POST genAI req)
       = (if ChatRoute.userData req
          then [ChatRoute.GenerateContent ChatRoute.geminiProName
                  (ChatRoute.prompt req)]
          else []).
Proof.
  intros genAI req. unfold ChatRoute.POST.
  destruct (ChatRoute.userData req); cbn [negb].
  - destruct (ChatRoute.generateContent genAI ChatRoute.geminiProName
                (ChatRoute.prompt req)) as [text|] eqn:Hg; cbn.
    + split; [auto|]. split; [|reflexivity].
      split; [|reflexivity]. intros _. split; [reflexivity|].
      now exists text.
    + split; [auto|]. split; [|reflexivity].
      split; [discriminate|]. intros [_ (text & H & _)]. discriminate H.
  - cbn. split; [auto|]. split; [|reflexivity].
    split; [discriminate|]. intros [H _]. discriminate H.
Qed.

(* ------------------------------------------------------------------ *)
(** ** The dataset form *)

Section FormFacts.

Import DatasetForm.
Variable Vec : Type.
Variable File : Type.
Implicit Types (be : Backend Vec File) (st : FormState Vec File).

Local Ltac run_form :=
  unfold handleCreateEmbeddings, toastError, exec, bind, ret,
    setLoading, getInput, setInput, emit;
  cbn [fst snd loading file inputValue calls].

Lemma form_skipped be data st :
  processed data = false ->
  exec (handleCreateEmbeddings be data) st
  = {| loading := false; file := file st; inputValue := inputValue st;
       calls := calls st |}.
Proof.
  unfold processed, Search.submitted. intros H. run_form.
  destruct data as [d|]; [rewrite H|]; reflexivity.
Qed.

Lemma form_embedding_failed be d st :
  Search.submitted d = true ->
  (Search.status (embeddingEndpoint be (replaceNewlines d)) =? 200)%Z = false ->
  exec (handleCreateEmbeddings be (Some d)) st
  = {| loading := false; file := file st; inputValue := inputValue st;
       calls := calls st
                ++ [FetchEmbedding (replaceNewlines d);
                    Toast toastTitle (Some defaultMessage)] |}.
Proof.
  unfold Search.submitted. intros H Hs. run_form. rewrite H.
  cbn [fst snd loading file inputValue calls]. rewrite Hs.
  cbn [negb fst snd loading file inputValue calls].
  now rewrite <- app_assoc.
Qed.

Lemma form_insert_refused be d st message :
  Search.submitted d = true ->
  (Search.status (embeddingEndpoint be (replaceNewlines d)) =? 200)%Z = true ->
  insert be (rowFor be d) = Some message ->
  exec (handleCreateEmbeddings be (Some d)) st
  = {| loading := false; file := file st; inputValue := inputValue st;
       calls := calls st
                ++ [FetchEmbedding (replaceNewlines d);
                    InsertDocument (rowFor be d);
                    Toast toastTitle (Some message)] |}.
Proof.
  unfold Search.submitted, rowFor. intros H Hs Hi. run_form. rewrite H.
  cbn [fst snd loading file inputValue calls]. rewrite Hs.
  cbn [negb fst snd loading file inputValue calls]. rewrite Hi.
  cbn [fst snd loading file inputValue calls].
  now rewrite <- !app_assoc.
Qed.

Lemma form_stored be d st :
  Search.submitted d = true ->
  (Search.status (embeddingEndpoint be (replaceNewlines d)) =? 200)%Z = true ->
  insert be (rowFor be d) = None ->
  exec (handleCreateEmbeddings be (Some d)) st
  = {| loading := false; file := file st; inputValue := [];
       calls := calls st
                ++ [FetchEmbedding (replaceNewlines d);
                    InsertDocument (rowFor be d);
                    Toast successTitle None] |}.
Proof.
  unfold Search.submitted, rowFor. intros H Hs Hi. run_form. rewrite H.
  cbn [fst snd loading file inputValue calls]. rewrite Hs.
  cbn [negb fst snd loading file inputValue calls]. rewrite Hi.
  cbn [fst snd loading file inputValue calls].
  now rewrite <- !app_assoc.
Qed.

Lemma form_ends be data st :
  FormEnd be data st (exec (handleCreateEmbeddings be data) st)
    (newCalls (handleCreateEmbeddings be data) st).
Proof.
  unfold newCalls.
  destruct (processed data) eqn:Hp.
  - destruct data as [d|]; [|discriminate Hp]. cbn in Hp.
    destruct (Search.status (embeddingEndpoint be (replaceNewlines d))
              =? 200)%Z eqn:Hs.
    + destruct (insert be (rowFor be d)) as [message|] eqn:Hi.
      * rewrite (@form_insert_refused be d st message Hp Hs Hi). cbn [calls].
        rewrite skipn_own_length. apply Z.eqb_eq in Hs.
        now apply EndRefused.
      * rewrite (@form_stored be d st Hp Hs Hi). cbn [calls].
        rewrite skipn_own_length. apply Z.eqb_eq in Hs.
        now apply EndStored.
    + rewrite (@form_embedding_failed be d st Hp Hs). cbn [calls].
      rewrite skipn_own_length. apply Z.eqb_neq in Hs.
      now apply EndEmbeddingFailed.
  - rewrite (@form_skipped be data st Hp). cbn [calls].
    rewrite skipn_all. now apply EndSkipped.
Qed.

End FormFacts.

Section FormEnds.

Import DatasetForm.
Variable Vec : Type.
Variable File : Type.
Implicit Types (be : Backend Vec File) (st : FormState Vec File).

Lemma FormEnd_frame be data st st' cs :
  FormEnd be data st st' cs ->
  calls st' = calls st ++ cs /\ file st' = file st /\ loading st' = false.
Proof.
  intros H. destruct H; cbn [calls file loading];
    repeat split; now rewrite ?app_nil_r.
Qed.

Lemma processed_allSpace (d : jsstring) :
  allSpace d -> processed (Some d) = false.
Proof. intros H. cbn. now apply submitted_allSpace. Qed.

Lemma handleSubmit_exec be st :
  exec (handleSubmit be) st
  = exec (handleCreateEmbeddings be (Some (inputValue st))) st.
Proof. reflexivity. Qed.

Lemma handleSubmitPdf_exec be st :
  exec (handleSubmitPdf be) st
  = exec (handleCreateEmbeddings be (pdfEndpoint be (file st)))
      {| loading := loading st; file := file st;
         inputValue := inputValue st;
         calls := calls st ++ [FetchPdf (file st)] |}.
Proof. reflexivity. Qed.

Lemma handleSubmitPdf_newCalls be st :
  newCalls (handleSubmitPdf be) st
  = FetchPdf (file st)
    :: newCalls (handleCreateEmbeddings be (pdfEndpoint be (file st)))
         {| loading := loading st; file := file st;
            inputValue := inputValue st;
            calls := calls st ++ [FetchPdf (file st)] |}.
Proof.
  unfold newCalls at 1. rewrite handleSubmitPdf_exec.
  set (st1 := {| loading := loading st; file := file st;
                 inputValue := inputValue st;
                 calls := calls st ++ [FetchPdf (file st)] |}).
  destruct (FormEnd_frame (form_ends be (pdfEndpoint be (file st)) st1))
    as (Hc & _).
  rewrite Hc. cbn [calls st1].
  rewrite <- app_assoc, !skipn_own_length. reflexivity.
Qed.

Lemma form_stores_given_text_after_embedding_aux be st data row :
  In (InsertDocument row) (newCalls (handleCreateEmbeddings be data) st) ->
  exists d, data = Some d /\ DatasetForm.data row = d.
Proof.
  intros Hin.
  destruct (form_ends be data st) as [Hp|d Hd Hs Hst|d m Hd Hs Hst Hi
                                        |d Hd Hs Hst Hi].
  - destruct Hin.
  - destruct Hin as [H|[H|[]]]; discriminate H.
  - destruct Hin as [H|[H|[H|[]]]]; try discriminate H.
    injection H as <-. now exists d.
  - destruct Hin as [H|[H|[H|[]]]]; try discriminate H.
    injection H as <-. now exists d.
Qed.

End FormEnds.

(** X16 (a blank or missing text is not stored): when the text handed to
    the form's handler is undefined, empty or white space only, nothing
    is requested, nothing is stored and no toast is raised; unlike the
    search box, the text area keeps what was typed. *)
Theorem form_blank_text_is_skipped :
  forall (Vec File : Type) (be : DatasetForm.Backend Vec File)
         (st : DatasetForm.FormState Vec File) (data : option jsstring),
    (data = None \/ exists d, data = Some d /\ allSpace d) ->
    DatasetForm.exec (DatasetForm.handleCreateEmbeddings be data) st
    = {| DatasetForm.loading := false;
         DatasetForm.file := DatasetForm.file st;
         DatasetForm.inputValue := DatasetForm.inputValue st;
         DatasetForm.calls := DatasetForm.calls st |}.
Proof.
  intros Vec File be st data H. apply form_skipped.
  destruct H as [->|(d & -> & Hd)]; [reflexivity|].
  now apply processed_allSpace.
Qed.

Lemma form_blank_text_is_skipped_witness :
  (Some [SP; LF] = None \/ exists d, Some [SP; LF] = Some d /\ allSpace d)
  /\ DatasetForm.exec
       (DatasetForm.handleCreateEmbeddings
          (DatasetForm.formBackend None 200) (Some [SP; LF]))
       (DatasetForm.typedForm [SP; LF])
     = DatasetForm.typedForm [SP; LF].
Proof.
  assert (H : Some [SP; LF] = None
              \/ exists d, Some [SP; LF] = Some d /\ allSpace d)
    by (right; exists [SP; LF]; split; [reflexivity|repeat constructor]).
  split; [exact H|].
  exact (@form_blank_text_is_skipped unit unit
           (DatasetForm.formBackend None 200)
           (DatasetForm.typedForm [SP; LF]) (Some [SP; LF]) H).
Defined.

(** X17 (what is stored, and when): every row the handler hands to the
    table comes after a 200 answer of the embedding route to the text
    with its line feeds turned into spaces; the row holds the text as it
    was given, line feeds included, with the values and the token count
    of that answer; the calls of the run are the embedding request, the
    insert and one toast: the success toast when the table accepted the
    row, the failure toast with the table's message when it refused. *)
Theorem form_stores_given_text_after_embedding :
  forall (Vec File : Type) (be : DatasetForm.Backend Vec File)
         (st : DatasetForm.FormState Vec File) (data : option jsstring)
         (row : DatasetForm.Row Vec),
    In (DatasetForm.InsertDocument row)
       (DatasetForm.newCalls (DatasetForm.handleCreateEmbeddings be data) st) ->
    exists (d : jsstring) (toast : DatasetForm.Event Vec File),
      data = Some d
      /\ Search.submitted d = true
      /\ Search.status
           (DatasetForm.embeddingEndpoint be (replaceNewlines d)) = 200%Z
      /\ DatasetForm.data row = d
      /\ DatasetForm.embedding row
         = DatasetForm.values
             (Search.json
                (DatasetForm.embeddingEndpoint be (replaceNewlines d)))
      /\ DatasetForm.token row
         = DatasetForm.resultToken
             (Search.json
                (DatasetForm.embeddingEndpoint be (replaceNewlines d)))
      /\ DatasetForm.newCalls (DatasetForm.handleCreateEmbeddings be data) st
         = [DatasetForm.FetchEmbedding (replaceNewlines d);
            DatasetForm.InsertDocument row; toast]
      /\ ((DatasetForm.insert be row = None
           /\ toast = DatasetForm.Toast DatasetForm.successTitle None)
          \/ (exists message,
                DatasetForm.insert be row = Some message
                /\ toast = DatasetForm.Toast DatasetForm.toastTitle
                             (Some message))).
Proof.
  intros Vec File be st data row Hin.
  destruct (form_ends be data st) as [Hp|d Hd Hs Hst|d m Hd Hs Hst Hi
                                        |d Hd Hs Hst Hi].
  - destruct Hin.
  - destruct Hin as [H|[H|[]]]; discriminate H.
  - destruct Hin as [H|[H|[H|[]]]]; try discriminate H.
    injection H as <-. eexists d, _. repeat split; try assumption.
    right. now exists m.
  - destruct Hin as [H|[H|[H|[]]]]; try discriminate H.
    injection H as <-. eexists d, _. repeat split; try assumption.
    left. now split.
Qed.

Lemma form_stores_given_text_after_embedding_witness :
  In (DatasetForm.InsertDocument
        (DatasetForm.rowFor (DatasetForm.formBackend (Some (lit "duplicate")) 200)
           (lit "a" ++ LF :: lit "b")))
     (DatasetForm.newCalls
        (DatasetForm.handleCreateEmbeddings
           (DatasetForm.formBackend (Some (lit "duplicate")) 200)
           (Some (lit "a" ++ LF :: lit "b")))
        (DatasetForm.typedForm []))
  /\ exists (d : jsstring) (toast : DatasetForm.Event unit unit),
       Some (lit "a" ++ LF :: lit "b") = Some d
       /\ DatasetForm.newCalls
            (DatasetForm.handleCreateEmbeddings
               (DatasetForm.formBackend (Some (lit "duplicate")) 200)
               (Some (lit "a" ++ LF :: lit "b")))
            (DatasetForm.typedForm [])
          = [DatasetForm.FetchEmbedding (replaceNewlines d);
             DatasetForm.InsertDocument
               (DatasetForm.rowFor
                  (DatasetForm.formBackend (Some (lit "duplicate")) 200)
                  (lit "a" ++ LF :: lit "b"));
             toast]
       /\ ((DatasetForm.insert
              (DatasetForm.formBackend (Some (lit "duplicate")) 200)
              (DatasetForm.rowFor
                 (DatasetForm.formBackend (Some (lit "duplicate")) 200)
                 (lit "a" ++ LF :: lit "b")) = None
            /\ toast = DatasetForm.Toast DatasetForm.successTitle None)
           \/ (exists message,
                 DatasetForm.insert
                   (DatasetForm.formBackend (Some (lit "duplicate")) 200)
                   (DatasetForm.rowFor
                      (DatasetForm.formBackend (Some (lit "duplicate")) 200)
                      (lit "a" ++ LF :: lit "b")) = Some message
                 /\ toast = DatasetForm.Toast DatasetForm.toastTitle
                              (Some message))).
Proof.
  assert (H : In (DatasetForm.InsertDocument
                    (DatasetForm.rowFor
                       (DatasetForm.formBackend (Some (lit "duplicate")) 200)
                       (lit "a" ++ LF :: lit "b")))
                 (DatasetForm.newCalls
                    (DatasetForm.handleCreateEmbeddings
                       (DatasetForm.formBackend (Some (lit "duplicate")) 200)
                       (Some (lit "a" ++ LF :: lit "b")))
                    (DatasetForm.typedForm [])))
    by (right; left; reflexivity).
  split; [exact H|].
  destruct (@form_stores_given_text_after_embedding unit unit
              (DatasetForm.formBackend (Some (lit "duplicate")) 200)
              (DatasetForm.typedForm [])
              (Some (lit "a" ++ LF :: lit "b")) _ H)
    as (d & toast & Hd & _ & _ & _ & _ & _ & Hc & Ht).
  exists d, toast. split; [exact Hd|]. split; [exact Hc | exact Ht].
Defined.

(** X18 (the text area is cleared only when the row was stored): the
    success toast is raised exactly when the table accepted the row, and
    then the text area is emptied; on every other path (skipped text,
    failed embedding, refused row) the text area keeps its content. *)
Theorem form_clears_text_only_when_stored :
  forall (Vec File : Type) (be : DatasetForm.Backend Vec File)
         (st : DatasetForm.FormState Vec File) (data : option jsstring),
    let st' := DatasetForm.exec
                 (DatasetForm.handleCreateEmbeddings be data) st in
    let cs := DatasetForm.newCalls
                (DatasetForm.handleCreateEmbeddings be data) st in
    (In (DatasetForm.Toast DatasetForm.successTitle None) cs
     <-> exists d,
           data = Some d /\ Search.submitted d = true
           /\ Search.status
                (DatasetForm.embeddingEndpoint be (replaceNewlines d))
              = 200%Z
           /\ DatasetForm.insert be (DatasetForm.rowFor be d) = None)
    /\ (In (DatasetForm.Toast DatasetForm.successTitle None) cs ->
        DatasetForm.inputValue st' = [])
    /\ (~ In (DatasetForm.Toast DatasetForm.successTitle None) cs ->
        DatasetForm.inputValue st' = DatasetForm.inputValue st).
Proof.
  intros Vec File be st data st' cs. subst st' cs.
  destruct (form_ends be data st) as [Hp|d Hd Hs Hst|d m Hd Hs Hst Hi
                                        |d Hd Hs Hst Hi];
    cbn [DatasetForm.inputValue].
  - split; [|split]; [|intros []|reflexivity].
    split; [intros []|]. intros (d & -> & Hs & _). cbn in Hp. congruence.
  - split; [|split]; [| |reflexivity].
    + split.
      * intros [H|[H|[]]]; discriminate H.
      * intros (d' & Hd' & _ & Hst' & _). congruence.
    + intros [H|[H|[]]]; discriminate H.
  - split; [|split]; [| |reflexivity].
    + split.
      * intros [H|[H|[H|[]]]]; discriminate H.
      * intros (d' & Hd' & _ & _ & Hi'). congruence.
    + intros [H|[H|[H|[]]]]; discriminate H.
  - split; [|split]; [|reflexivity|].
    + split; [|intros _; right; right; left; reflexivity].
      intros _. now exists d.
    + intros H. exfalso. apply H. right; right; left; reflexivity.
Qed.

(** When every await of the handler resolves: one toast when the text is
    processed and none when it is skipped, at most one row, the loading
    flag false and the chosen file untouched. *)
Lemma form_one_toast_when_resolved :
  forall (Vec File : Type) (be : DatasetForm.Backend Vec File)
         (st : DatasetForm.FormState Vec File) (data : option jsstring),
    List.length
      (filter (@DatasetForm.isToast Vec File)
         (DatasetForm.newCalls (DatasetForm.handleCreateEmbeddings be data) st))
    = (if DatasetForm.processed data then 1%nat else 0%nat)
    /\ (List.length
          (filter (@DatasetForm.isInsert Vec File)
             (DatasetForm.newCalls
                (DatasetForm.handleCreateEmbeddings be data) st)) <= 1)%nat
    /\ DatasetForm.loading
         (DatasetForm.exec (DatasetForm.handleCreateEmbeddings be data) st)
       = false
    /\ DatasetForm.file
         (DatasetForm.exec (DatasetForm.handleCreateEmbeddings be data) st)
       = DatasetForm.file st.
Proof.
  intros Vec File be st data.
  destruct (form_ends be data st) as [Hp|d Hd Hs Hst|d m Hd Hs Hst Hi
                                        |d Hd Hs Hst Hi];
    try (subst data; cbn [DatasetForm.processed]; rewrite Hs);
    try rewrite Hp; cbn; repeat split; lia.
Qed.

(** X20 (which text each button stores): a row stored through the Submit
    button holds the content of the text area; a row stored through the
    Convert PDF button holds the text the PDF route returned for the
    chosen file, whatever the text area holds, and that request is the
    first call made. *)
Theorem form_buttons_store_their_own_text :
  forall (Vec File : Type) (be : DatasetForm.Backend Vec File)
         (st : DatasetForm.FormState Vec File) (row : DatasetForm.Row Vec),
    (In (DatasetForm.InsertDocument row)
        (DatasetForm.newCalls (DatasetForm.handleSubmit be) st) ->
     DatasetForm.data row = DatasetForm.inputValue st)
    /\ (In (DatasetForm.InsertDocument row)
           (DatasetForm.newCalls (DatasetForm.handleSubmitPdf be) st) ->
        DatasetForm.pdfEndpoint be (DatasetForm.file st)
          = Some (DatasetForm.data row))
    /\ hd_error (DatasetForm.newCalls (DatasetForm.handleSubmitPdf be) st)
       = Some (DatasetForm.FetchPdf (DatasetForm.file st)).
Proof.
  intros Vec File be st row. split; [|split].
  - intros Hin.
    change (DatasetForm.newCalls (DatasetForm.handleSubmit be) st)
      with (DatasetForm.newCalls
              (DatasetForm.handleCreateEmbeddings be
                 (Some (DatasetForm.inputValue st))) st) in Hin.
    apply form_stores_given_text_after_embedding_aux in Hin.
    destruct Hin as (d & Hd & Hrow). injection Hd as <-. exact Hrow.
  - rewrite handleSubmitPdf_newCalls. intros [H|Hin]; [discriminate H|].
    apply form_stores_given_text_after_embedding_aux in Hin.
    destruct Hin as (d & Hd & Hrow). now rewrite Hd, Hrow.
  - now rewrite handleSubmitPdf_newCalls.
Qed.

(* ------------------------------------------------------------------ *)
(** ** The search component in front of the routes *)

Section DeploymentFacts.

Import Search.
Variable Vec : Type.
Implicit Types (be : Backend Vec) (st : Page Vec).

(** A turn reads the backend at the text it embeds, at the vector it got
    back and at the prompt it renders, nowhere else. *)
Lemma handleSearch_backend_ext be1 be2 st :
  embeddingEndpoint be1 (replaceNewlines (inputValue st))
  = embeddingEndpoint be2 (replaceNewlines (inputValue st)) ->
  match_documents be1
    (json (embeddingEndpoint be1 (replaceNewlines (inputValue st))))
  = match_documents be2
      (json (embeddingEndpoint be1 (replaceNewlines (inputValue st)))) ->
  chatEndpoint be1 (turnPrompt be1 (inputValue st))
  = chatEndpoint be2 (turnPrompt be1 (inputValue st)) ->
  exec (handleSearch be1) st = exec (handleSearch be2) st.
Proof.
  intros He Hm Hc.
  assert (Hp : turnPrompt be2 (inputValue st) = turnPrompt be1 (inputValue st)).
  { unfold turnPrompt. cbv zeta. now rewrite <- He, <- Hm. }
  destruct (submitted (inputValue st)) eqn:Hsub.
  - destruct (status (embeddingEndpoint be1 (replaceNewlines (inputValue st)))
              =? 200)%Z eqn:Hs.
    + destruct (status (chatEndpoint be1 (turnPrompt be1 (inputValue st)))
                =? 200)%Z eqn:Hcs.
      * rewrite (@handleSearch_generated Vec be1) by assumption.
        rewrite (@handleSearch_generated Vec be2)
          by (rewrite <- ?He, ?Hp, <- ?Hc; assumption).
        now rewrite <- He, Hp, <- Hc.
      * rewrite (@handleSearch_generation_failed Vec be1) by assumption.
        rewrite (@handleSearch_generation_failed Vec be2)
          by (rewrite <- ?He, ?Hp, <- ?Hc; assumption).
        now rewrite <- He, Hp.
    + rewrite (@handleSearch_embedding_failed Vec be1) by assumption.
      rewrite (@handleSearch_embedding_failed Vec be2)
        by (rewrite <- ?He; assumption).
      reflexivity.
  - now rewrite !handleSearch_blank by assumption.
Qed.

End DeploymentFacts.

(** X21 (the guards agree): behind the two routes, the embedding request
    of a processed turn is never answered 422: a text that passes the
    guard of the search box is still not empty once its line feeds are
    spaces, so the route's missing-key check cannot fire; the answer is
    403, 500 or 200. *)
Theorem processed_turn_never_gets_missing_key :
  forall (Emb Vec : Type) (valuesOf : Emb -> option Vec) (auth : bool)
         (embedder : EmbeddingRoute.GenAI Emb) (generator : ChatRoute.GenAI)
         (rpc : option Vec -> option (list Search.Document))
         (searchText : jsstring),
    Search.submitted searchText = true ->
    let r := Search.embeddingEndpoint
               (Deployment.routedBackend valuesOf auth embedder generator rpc)
               (replaceNewlines searchText) in
    Search.status r <> 422%Z
    /\ (Search.status r = 403%Z \/ Search.status r = 500%Z
        \/ Search.status r = 200%Z).
Proof.
  intros Emb Vec valuesOf auth embedder generator rpc q Hsub r. subst r.
  cbn [Deployment.routedBackend Search.embeddingEndpoint Search.status].
  pose proof (submitted_replaceNewlines q Hsub) as Hne.
  unfold EmbeddingRoute.POST.
  cbn [EmbeddingRoute.userData EmbeddingRoute.text].
  destruct auth; cbn [negb];
    [|cbn; split; [discriminate|auto]].
  destruct (replaceNewlines q) as [|c t]; [now contradiction Hne|].
  destruct (EmbeddingRoute.countTokens embedder EmbeddingRoute.geminiProName
              (c :: t)) as [token|];
    [|cbn; split; [discriminate|auto]].
  destruct (EmbeddingRoute.embedContent embedder
              EmbeddingRoute.embeddingModelName (c :: t)) as [e|];
    cbn; (split; [discriminate|auto]).
Qed.

Lemma processed_turn_never_gets_missing_key_witness :
  Search.submitted (lit "flying") = true
  /\ Search.status
       (Search.embeddingEndpoint
          (Deployment.routedBackend (fun e : list Z => Some e) true
             EmbeddingRoute.splitClient ChatRoute.echoClient
             (fun _ => Some []))
          (replaceNewlines (lit "flying"))) <> 422%Z.
Proof.
  split; [reflexivity|].
  exact (proj1 (@processed_turn_never_gets_missing_key (list Z) (list Z)
                  (fun e => Some e) true EmbeddingRoute.splitClient
                  ChatRoute.echoClient (fun _ => Some []) (lit "flying")
                  eq_refl)).
Defined.

(** X22 (a whole turn through both routes): for a signed-in session,
    when the client counts and embeds the text (line feeds as spaces)
    and the gemini-pro model generates for the prompt rendered from the
    matches of that vector and the typed text, the turn appends the
    question and that generated text as its answer, and the chat route
    was asked with exactly that prompt. *)
Theorem routed_turn_appends_generated_answer :
  forall (Emb Vec : Type) (valuesOf : Emb -> option Vec)
         (embedder : EmbeddingRoute.GenAI Emb) (generator : ChatRoute.GenAI)
         (rpc : option Vec -> option (list Search.Document))
         (st : Search.Page Vec) (token : Z) (e : Emb) (text : jsstring),
    let be := Deployment.routedBackend valuesOf true embedder generator rpc in
    let q := Search.inputValue st in
    let prompt := Search.generatePrompt
                    (snd (Search.assemble Search.tokenBudget
                            (rpc (valuesOf e)))) q in
    Search.submitted q = true ->
    EmbeddingRoute.countTokens embedder EmbeddingRoute.geminiProName
      (replaceNewlines q) = Some token ->
    EmbeddingRoute.embedContent embedder EmbeddingRoute.embeddingModelName
      (replaceNewlines q) = Some e ->
    ChatRoute.generateContent generator ChatRoute.geminiProName (Some prompt)
      = Some text ->
    Search.answers (Search.exec (Search.handleSearch be) st)
      = Search.answers st ++ [text]
    /\ Search.questions (Search.exec (Search.handleSearch be) st)
       = Search.questions st ++ [q]
    /\ Search.chatPrompts (Search.turnCalls be st) = [prompt].
Proof.
  intros Emb Vec valuesOf embedder generator rpc st token e text be q prompt
    Hsub Hc He Hg.
  pose proof (submitted_replaceNewlines q Hsub) as Hne.
  assert (Hemb : Search.embeddingEndpoint be (replaceNewlines q)
                 = {| Search.status := 200; Search.json := valuesOf e |}).
  { subst be.
    cbn [Deployment.routedBackend Search.embeddingEndpoint].
    unfold EmbeddingRoute.POST.
    cbn [EmbeddingRoute.userData EmbeddingRoute.text negb].
    destruct (replaceNewlines q) as [|c t] eqn:Hq; [now contradiction Hne|].
    rewrite Hc, He. reflexivity. }
  assert (Hprompt : Search.turnPrompt be q = prompt).
  { unfold Search.turnPrompt. cbv zeta. rewrite Hemb. reflexivity. }
  assert (Hchat : Search.chatEndpoint be prompt
                  = {| Search.status := 200; Search.json := text |}).
  { subst be. cbn [Deployment.routedBackend Search.chatEndpoint].
    unfold ChatRoute.POST. cbn [ChatRoute.userData ChatRoute.prompt negb].
    rewrite Hg. reflexivity. }
  assert (Hs : (Search.status (Search.embeddingEndpoint be (replaceNewlines q))
                =? 200)%Z = true) by now rewrite Hemb.
  assert (Hcs : (Search.status (Search.chatEndpoint be (Search.turnPrompt be q))
                 =? 200)%Z = true) by now rewrite Hprompt, Hchat.
  split; [|split].
  - rewrite handleSearch_generated by assumption.
    cbn [Search.answers]. fold q. now rewrite Hprompt, Hchat.
  - rewrite handleSearch_generated by assumption. reflexivity.
  - rewrite chatPrompts_turn by assumption. fold q. now rewrite Hprompt.
Qed.

Lemma routed_turn_appends_generated_answer_witness :
  Search.submitted (lit "flying") = true
  /\ Search.answers
       (Search.exec
          (Search.handleSearch
             (Deployment.routedBackend (fun e : list Z => Some e) true
                EmbeddingRoute.splitClient ChatRoute.echoClient
                (fun _ => Some [Search.parisDocument])))
          {| Search.questions := []; Search.answers := [];
             Search.loading := false; Search.inputValue := lit "flying";
             Search.calls := [] |})
     = [] ++ [lit "Dream: "
              ++ Search.generatePrompt
                   (snd (Search.assemble Search.tokenBudget
                           (Some [Search.parisDocument])))
                   (lit "flying")].
Proof.
  split; [reflexivity|].
  exact (proj1 (@routed_turn_appends_generated_answer (list Z) (list Z)
                  (fun e => Some e) EmbeddingRoute.splitClient
                  ChatRoute.echoClient (fun _ => Some [Search.parisDocument])
                  {| Search.questions := []; Search.answers := [];
                     Search.loading := false;
                     Search.inputValue := lit "flying";
                     Search.calls := [] |}
                  6%Z [6%Z; 1%Z] _ eq_refl eq_refl eq_refl eq_refl)).
Defined.

(** X24 (the token count of the route is not used by a search): two
    embedding clients that embed alike and both manage to count the
    tokens of the submitted text lead to the same page after the turn,
    however differently they count. *)
Theorem search_turn_ignores_token_count :
  forall (Emb Vec : Type) (valuesOf : Emb -> option Vec) (auth : bool)
         (embedder1 embedder2 : EmbeddingRoute.GenAI Emb)
         (generator : ChatRoute.GenAI)
         (rpc : option Vec -> option (list Search.Document))
         (st : Search.Page Vec),
    (forall model t,
       EmbeddingRoute.embedContent embedder1 model t
       = EmbeddingRoute.embedContent embedder2 model t) ->
    EmbeddingRoute.countTokens embedder1 EmbeddingRoute.geminiProName
      (replaceNewlines (Search.inputValue st)) <> None ->
    EmbeddingRoute.countTokens embedder2 EmbeddingRoute.geminiProName
      (replaceNewlines (Search.inputValue st)) <> None ->
    Search.exec
      (Search.handleSearch
         (Deployment.routedBackend valuesOf auth embedder1 generator rpc)) st
    = Search.exec
        (Search.handleSearch
           (Deployment.routedBackend valuesOf auth embedder2 generator rpc)) st.
Proof.
  intros Emb Vec valuesOf auth e1 e2 generator rpc st Hemb Hc1 Hc2.
  apply handleSearch_backend_ext; [|reflexivity|reflexivity].
  cbn [Deployment.routedBackend Search.embeddingEndpoint].
  unfold EmbeddingRoute.POST.
  cbn [EmbeddingRoute.userData EmbeddingRoute.text].
  destruct auth; cbn [negb]; [|reflexivity].
  destruct (replaceNewlines (Search.inputValue st)) as [|c t]; [reflexivity|].
  destruct (EmbeddingRoute.countTokens e1 EmbeddingRoute.geminiProName (c :: t))
    as [t1|]; [|now contradiction Hc1].
  destruct (EmbeddingRoute.countTokens e2 EmbeddingRoute.geminiProName (c :: t))
    as [t2|]; [|now contradiction Hc2].
  rewrite Hemb.
  destruct (EmbeddingRoute.embedContent e2 EmbeddingRoute.embeddingModelName
              (c :: t)); reflexivity.
Qed.

Lemma search_turn_ignores_token_count_witness :
  EmbeddingRoute.countTokens EmbeddingRoute.splitClient
    EmbeddingRoute.geminiProName (replaceNewlines (lit "flying")) = Some 6%Z
  /\ EmbeddingRoute.countTokens Deployment.doubleCountClient
       EmbeddingRoute.geminiProName (replaceNewlines (lit "flying"))
     = Some 12%Z
  /\ Search.exec
       (Search.handleSearch
          (Deployment.routedBackend (fun e : list Z => Some e) true
             EmbeddingRoute.splitClient ChatRoute.echoClient
             (fun _ => Some [Search.parisDocument])))
       {| Search.questions := []; Search.answers := [];
          Search.loading := false; Search.inputValue := lit "flying";
          Search.calls := [] |}
     = Search.exec
         (Search.handleSearch
            (Deployment.routedBackend (fun e : list Z => Some e) true
               Deployment.doubleCountClient ChatRoute.echoClient
               (fun _ => Some [Search.parisDocument])))
         {| Search.questions := []; Search.answers := [];
            Search.loading := false; Search.inputValue := lit "flying";
            Search.calls := [] |}.
Proof.
  split; [reflexivity|]. split; [reflexivity|].
  apply (@search_turn_ignores_token_count (list Z) (list Z)
           (fun e => Some e) true EmbeddingRoute.splitClient
           Deployment.doubleCountClient ChatRoute.echoClient
           (fun _ => Some [Search.parisDocument])).
  - intros model t. reflexivity.
  - vm_compute. discriminate.
  - vm_compute. discriminate.
Defined.

(* ------------------------------------------------------------------ *)
(** ** The dataset page *)

(** X25 (who sees the dataset form): the page renders the form exactly
    when a user is signed in and the role stored for that user is the
    string admin; the users table is asked only for the signed-in user;
    every other visit is redirected, to /auth without a user and to the
    home page otherwise. *)
Theorem dataset_form_is_for_admins :
  forall (UserId : Type) (sv : DatasetPage.Services UserId),
    (fst (DatasetPage.Page sv) = DatasetPage.RenderForm
     <-> exists id,
           DatasetPage.getUser sv = Some id
           /\ DatasetPage.roleOf sv id = Some (lit "admin"))
    /\ (forall id,
          In (DatasetPage.SelectRole id) (snd (DatasetPage.Page sv)) ->
          DatasetPage.getUser sv = Some id)
    /\ (DatasetPage.getUser sv = None ->
        fst (DatasetPage.Page sv) = DatasetPage.Redirect (lit "/auth"))
    /\ (fst (DatasetPage.Page sv) = DatasetPage.RenderForm
        \/ fst (DatasetPage.Page sv) = DatasetPage.Redirect (lit "/auth")
        \/ fst (DatasetPage.Page sv) = DatasetPage.Redirect (lit "/")).
Proof.
  intros UserId sv. unfold DatasetPage.Page.
  destruct (DatasetPage.getUser sv) as [id|].
  - destruct (DatasetPage.roleOf sv id) as [r|] eqn:Hr;
      cbn [DatasetPage.isAdmin].
    + destruct (JS.eqb r (lit "admin")) eqn:E; cbn [negb fst snd].
      * apply eqb_eq in E. subst r. repeat split; auto.
        -- intros _. exists id. now rewrite Hr.
        -- intros id' [H|[H|[]]]; [discriminate H|].
           injection H as <-. reflexivity.
        -- discriminate.
      * repeat split; auto; try discriminate.
        -- intros (id' & Hid & Hrole). injection Hid as <-.
           rewrite Hr in Hrole. injection Hrole as ->.
           assert (JS.eqb (lit "admin") (lit "admin") = true) by reflexivity.
           congruence.
        -- intros id' [H|[H|[]]]; [discriminate H|].
           injection H as <-. reflexivity.
    + cbn [negb fst snd]. repeat split; auto; try discriminate.
      * intros (id' & Hid & Hrole). injection Hid as <-. congruence.
      * intros id' [H|[H|[]]]; [discriminate H|].
        injection H as <-. reflexivity.
  - cbn [fst snd]. repeat split; auto; try discriminate.
    + intros (id & H & _). discriminate H.
    + intros id [H|[]]. discriminate H.
Qed.

(* ------------------------------------------------------------------ *)
(** ** Turns in which an await may reject *)

Section AwaitFacts.

Import Search.
Variable Vec : Type.
Implicit Types (w : SearchAwait.World Vec) (st : Page Vec).

Local Ltac unfold_await :=
  unfold SearchAwait.handleSearch, SearchAwait.generateAnswer,
    SearchAwait.bind, SearchAwait.lift, SearchAwait.await, SearchAwait.ok,
    SearchAwait.throw, toastError, setLoading, setQuestion, setAnswer,
    getInput, setInput, emit;
  cbn [fst snd questions answers loading inputValue calls].

Local Ltac step_await :=
  cbn [fst snd questions answers loading inputValue calls negb].

(** How a turn can end: normally, with the page idle, or on an exception,
    with the page still loading, the input as typed, the question
    appended and no answer added. *)
Lemma handleSearch_await_ends w st :
  (fst (SearchAwait.handleSearch w st) = Some tt
   /\ loading (snd (SearchAwait.handleSearch w st)) = false
   /\ inputValue (snd (SearchAwait.handleSearch w st)) = [])
  \/ (fst (SearchAwait.handleSearch w st) = None
      /\ loading (snd (SearchAwait.handleSearch w st)) = true
      /\ inputValue (snd (SearchAwait.handleSearch w st)) = inputValue st
      /\ submitted (inputValue st) = true
      /\ questions (snd (SearchAwait.handleSearch w st))
         = questions st ++ [inputValue st]
      /\ answers (snd (SearchAwait.handleSearch w st)) = answers st).
Proof.
  unfold submitted. unfold_await.
  destruct (truthy (inputValue st) && truthy (trim (inputValue st))) eqn:Hsub;
    step_await; [|left; repeat split].
  destruct (SearchAwait.fetchEmbedding w (replaceNewlines (inputValue st)))
    as [res|]; step_await; [|right; repeat split].
  destruct (negb (status res =? 200)%Z); step_await; [left; repeat split|].
  destruct (json res) as [data|]; step_await; [|right; repeat split].
  destruct (SearchAwait.assemble (SearchAwait.rpc w data)) as [[tc ctx]|];
    step_await; [|right; repeat split].
  destruct (SearchAwait.fetchChat w (generatePrompt ctx (inputValue st)))
    as [res2|]; step_await; [|right; repeat split].
  destruct (negb (status res2 =? 200)%Z); step_await; [left; repeat split|].
  destruct (json res2) as [choices|]; step_await;
    [left; repeat split|right; repeat split].
Qed.



End AwaitFacts.


(** X10 (the loading line after a turn): after a turn that returned
    normally no block shows the loading line, answer or not; after a turn
    that an exception ended, on a page that had as many answers as
    questions, the block of the new question shows the loading line, and
    nothing in the handler will take it away. *)
Theorem loading_line_stays_after_rejected_await :
  forall (Vec : Type) (w : SearchAwait.World Vec) (st : Search.Page Vec),
    (fst (SearchAwait.handleSearch w st) = Some tt ->
     Forall (fun block => snd block <> SearchView.LoadingText)
       (SearchView.render (snd (SearchAwait.handleSearch w st))))
    /\ (fst (SearchAwait.handleSearch w st) = None ->
        List.length (Search.answers st) = List.length (Search.questions st) ->
        skipn (List.length (Search.questions st))
          (SearchView.render (snd (SearchAwait.handleSearch w st)))
        = [(Search.inputValue st, SearchView.LoadingText)]).
Proof.
  intros Vec w st. split.
  - intros Hr. apply renderFrom_settled.
    destruct (handleSearch_await_ends w st)
      as [(_ & Hl & _)|(Hr' & _)]; [exact Hl|congruence].
  - intros Hr Hlen.
    destruct (handleSearch_await_ends w st)
      as [(Hr' & _)|(_ & Hl & _ & _ & Hq & Ha)]; [congruence|].
    unfold SearchView.render. rewrite Hq, renderFrom_app.
    rewrite <- (renderFrom_length (snd (SearchAwait.handleSearch w st)) O
                  (Search.questions st)) at 1.
    rewrite skipn_own_length.
    cbn [SearchView.renderFrom]. rewrite Hl, Ha, Nat.add_0_l, <- Hlen.
    replace (nth_error (Search.answers st)
               (List.length (Search.answers st))) with (@None jsstring)
      by (symmetry; apply nth_error_None; lia).
    reflexivity.
Qed.

(** With the network down, the turn of a processed text ends on an
    exception: the page stays loading and shows the loading line under
    the question. *)
Example offline_turn_keeps_loading :
  SearchAwait.handleSearch SearchAwait.offline (Search.freshPage (lit "flying"))
  = (None,
     {| Search.questions := [lit "flying"]; Search.answers := [];
        Search.loading := true; Search.inputValue := lit "flying";
        Search.calls := [Search.FetchEmbedding (lit "flying")] |})
  /\ SearchView.render
       (snd (SearchAwait.handleSearch SearchAwait.offline
               (Search.freshPage (lit "flying"))))
     = [(lit "flying", SearchView.LoadingText)].
Proof. split; reflexivity. Qed.

(* ------------------------------------------------------------------ *)
(** ** The dataset form when an await may reject *)

Section FormAwaitFacts.

Import DatasetForm.
Variable Vec : Type.
Variable File : Type.
Implicit Types (w : FormAwait.World Vec) (st : FormState Vec File).





End FormAwaitFacts.


(** With the network down, a processed text raises no toast and the
    form stays loading. *)
Example offline_form_keeps_loading :
  FormAwait.handleCreateEmbeddings FormAwait.offline
    (FormAwait.Text (lit "A passage")) (DatasetForm.typedForm (lit "A passage"))
  = (None,
     {| DatasetForm.loading := true; DatasetForm.file := None;
        DatasetForm.inputValue := lit "A passage";
        DatasetForm.calls := [DatasetForm.FetchEmbedding (lit "A passage")] |}).
Proof. reflexivity. Qed.

(* ------------------------------------------------------------------ *)
(** ** The two copies of generateAnswer on a failed generation *)

(** On a reply other than 200 the later copy of [generateAnswer] appends
    its fixed answer and raises no toast, where the copy of the search
    component raises the toast and appends nothing. *)
Lemma later_generateAnswer_appends_fallback :
  forall (Vec : Type) (be : Search.Backend Vec) (prompt : jsstring)
         (st : Search.Page Vec),
    Search.status (Search.chatEndpoint be prompt) <> 200%Z ->
    Search.answers (Search.exec (SearchLater.generateAnswer be prompt) st)
      = Search.answers st ++ [SearchLater.fallbackAnswer]
    /\ Search.calls (Search.exec (SearchLater.generateAnswer be prompt) st)
       = Search.calls st ++ [Search.FetchChat prompt]
    /\ Search.answers (Search.exec (Search.generateAnswer be prompt) st)
       = Search.answers st
    /\ Search.calls (Search.exec (Search.generateAnswer be prompt) st)
       = Search.calls st
         ++ [Search.FetchChat prompt;
             Search.Toast Search.toastTitle Search.defaultMessage].
Proof.
  intros Vec be prompt st Hs. apply Z.eqb_neq in Hs.
  unfold SearchLater.generateAnswer, Search.generateAnswer, Search.exec,
    Search.bind, Search.toastError, Search.emit, Search.setAnswer.
  cbn [fst snd Search.answers Search.calls]. rewrite Hs.
  cbn [negb fst snd Search.answers Search.calls].
  repeat split; now rewrite <- ?app_assoc.
Qed.

(* ------------------------------------------------------------------ *)
(** ** The route handlers from the raw request *)

Section RawRouteFacts.

Variable Vec : Type.

Lemma embeddingHandler_parsed (genAI : EmbeddingRoute.GenAI Vec) a text :
  RawRoutes.embeddingHandler genAI (Some a) (RawRoutes.JsonValue text)
  = (Some (fst (EmbeddingRoute.POST genAI
                  {| EmbeddingRoute.userData := true;
                     EmbeddingRoute.text := text |})),
     snd (EmbeddingRoute.POST genAI
            {| EmbeddingRoute.userData := true;
               EmbeddingRoute.text := text |})).
Proof.
  cbn [RawRoutes.embeddingHandler].
  now destruct (EmbeddingRoute.POST genAI _).
Qed.

Lemma embeddingHandler_null (genAI : EmbeddingRoute.GenAI Vec) a :
  RawRoutes.embeddingHandler genAI (Some a) RawRoutes.JsonNull
  = RawRoutes.embeddingHandler genAI (Some a) (RawRoutes.JsonValue None).
Proof. reflexivity. Qed.

End RawRouteFacts.

(** X14 (the outcomes of the embedding route): the handler ends on an
    exception exactly when [getUser] gave a truthy [data] and the body is
    not JSON (the body is parsed before the [try]), and then the client
    was not called.  Otherwise it answers 403, 422, 500 or 200: 403
    exactly when [data] is falsy; 200 exactly when [data] is truthy, the
    body holds a text that is not empty and both calls on the client
    succeed, and exactly then the body of the answer carries a token
    count and an embedding.  Whether [data] names a user plays no part:
    the handler tests [data], not [data.user]. *)
Theorem embedding_handler_outcomes :
  forall (Vec : Type) (genAI : EmbeddingRoute.GenAI Vec)
         (data : option RawRoutes.AuthData) (raw : RawRoutes.RawBody),
    (fst (RawRoutes.embeddingHandler genAI data raw) = None
     <-> data <> None /\ raw = RawRoutes.NotJson)
    /\ (fst (RawRoutes.embeddingHandler genAI data raw) = None ->
        snd (RawRoutes.embeddingHandler genAI data raw) = [])
    /\ (forall r,
          fst (RawRoutes.embeddingHandler genAI data raw) = Some r ->
          (EmbeddingRoute.status r = 403%Z \/ EmbeddingRoute.status r = 422%Z
           \/ EmbeddingRoute.status r = 500%Z
           \/ EmbeddingRoute.status r = 200%Z)
          /\ (EmbeddingRoute.status r = 403%Z <-> data = None)
          /\ (EmbeddingRoute.status r = 200%Z
              <-> data <> None
                  /\ exists t token vector,
                       raw = RawRoutes.JsonValue (Some t) /\ t <> []
                       /\ EmbeddingRoute.countTokens genAI
                            EmbeddingRoute.geminiProName t = Some token
                       /\ EmbeddingRoute.embedContent genAI
                            EmbeddingRoute.embeddingModelName t
                          = Some vector)
          /\ (EmbeddingRoute.status r = 200%Z
              <-> exists token vector,
                    EmbeddingRoute.body r
                    = EmbeddingRoute.Embedded token vector))
    /\ (forall u u',
          RawRoutes.embeddingHandler genAI
            (Some {| RawRoutes.user := u |}) raw
          = RawRoutes.embeddingHandler genAI
              (Some {| RawRoutes.user := u' |}) raw).
Proof.
  intros Vec genAI data raw.
  split; [|split; [|split]].
  - destruct data as [a|]; [destruct raw as [| |text]|].
    + cbn. split; [intros _; split; [discriminate|reflexivity]|reflexivity].
    + rewrite embeddingHandler_null, embeddingHandler_parsed. cbn [fst].
      split; [discriminate|]. intros [_ H]. discriminate H.
    + rewrite embeddingHandler_parsed. cbn [fst].
      split; [discriminate|]. intros [_ H]. discriminate H.
    + cbn. split; [discriminate|]. intros [H _]. now contradiction H.
  - destruct data as [a|]; [destruct raw as [| |text]|].
    + reflexivity.
    + rewrite embeddingHandler_null, embeddingHandler_parsed. discriminate.
    + rewrite embeddingHandler_parsed. discriminate.
    + cbn. discriminate.
  - intros r Hr.
    destruct data as [a|].
    + assert (Hex : exists text,
                 r = fst (EmbeddingRoute.POST genAI
                            {| EmbeddingRoute.userData := true;
                               EmbeddingRoute.text := text |})
                 /\ (forall t, text = Some t ->
                       raw = RawRoutes.JsonValue (Some t))
                 /\ (forall t, raw = RawRoutes.JsonValue (Some t) ->
                       text = Some t)).
      { destruct raw as [| |text].
        - discriminate Hr.
        - rewrite embeddingHandler_null, embeddingHandler_parsed in Hr.
          injection Hr as <-. exists None.
          repeat split; intros; discriminate.
        - rewrite embeddingHandler_parsed in Hr. injection Hr as <-.
          exists text. repeat split; intros; congruence. }
      destruct Hex as (text & -> & Hto & Hfrom).
      destruct (@embedding_route_status_cases Vec genAI
                  {| EmbeddingRoute.userData := true;
                     EmbeddingRoute.text := text |})
        as (Hany & H200 & Hbody & H403).
      cbn [EmbeddingRoute.userData EmbeddingRoute.text] in *.
      split; [exact Hany|]. split; [|split; [|exact Hbody]].
      * rewrite H403. split; discriminate.
      * rewrite H200. split.
        -- intros [_ (t & token & vector & Ht & Hne & Hc & He)].
           split; [discriminate|]. exists t, token, vector.
           repeat split; auto.
        -- intros [_ (t & token & vector & Hraw & Hne & Hc & He)].
           split; [reflexivity|]. exists t, token, vector.
           repeat split; auto.
    + cbn in Hr. injection Hr as <-. cbn.
      split; [auto|]. split; [tauto|]. split.
      * split; [discriminate|]. intros [H _]. now contradiction H.
      * split; [discriminate|]. intros (? & ? & H). discriminate H.
  - intros u u'. reflexivity.
Qed.

(** X15 (the outcomes of the chat route): the handler ends on an
    exception exactly when [getUser] gave a truthy [data] and the body is
    not JSON or is [null] (the body is destructured before the [try]),
    without calling the client.  Otherwise it answers 403, 400 or 200:
    403 exactly when [data] is falsy; 200 exactly when [data] is truthy
    and the gemini-pro model generates for the prompt of the body, and
    then the answer carries that text.  The client is called once,
    prompt or no prompt, when [data] is truthy and the body was read,
    and not otherwise; whether [data] names a user plays no part. *)
Theorem chat_handler_outcomes :
  forall (genAI : ChatRoute.GenAI) (data : option RawRoutes.AuthData)
         (raw : RawRoutes.RawBody),
    (fst (RawRoutes.chatHandler genAI data raw) = None
     <-> data <> None
         /\ (raw = RawRoutes.NotJson \/ raw = RawRoutes.JsonNull))
    /\ (forall r,
          fst (RawRoutes.chatHandler genAI data raw) = Some r ->
          (ChatRoute.status r = 403%Z \/ ChatRoute.status r = 400%Z
           \/ ChatRoute.status r = 200%Z)
          /\ (ChatRoute.status r = 403%Z <-> data = None)
          /\ (ChatRoute.status r = 200%Z
              <-> data <> None
                  /\ exists prompt text,
                       raw = RawRoutes.JsonValue prompt
                       /\ ChatRoute.generateContent genAI
                            ChatRoute.geminiProName prompt = Some text
                       /\ ChatRoute.body r = ChatRoute.Choices text))
    /\ snd (RawRoutes.chatHandler genAI data raw)
       = match data, raw with
         | Some _, RawRoutes.JsonValue prompt =>
             [ChatRoute.GenerateContent ChatRoute.geminiProName prompt]
         | _, _ => []
         end
    /\ (forall u u',
          RawRoutes.chatHandler genAI (Some {| RawRoutes.user := u |}) raw
          = RawRoutes.chatHandler genAI
              (Some {| RawRoutes.user := u' |}) raw).
Proof.
  intros genAI data raw.
  destruct data as [a|]; [destruct raw as [| |prompt]|].
  - cbn. split; [|split; [|split]]; try reflexivity.
    + split; [intros _; split; [discriminate|now left]|reflexivity].
    + intros r H. discriminate H.
  - cbn. split; [|split; [|split]]; try reflexivity.
    + split; [intros _; split; [discriminate|now right]|reflexivity].
    + intros r H. discriminate H.
  - cbn [RawRoutes.chatHandler]. unfold ChatRoute.POST.
    cbn [ChatRoute.userData ChatRoute.prompt negb].
    destruct (ChatRoute.generateContent genAI ChatRoute.geminiProName prompt)
      as [text|] eqn:Hg; cbn [fst snd].
    + split; [|split; [|split]]; try reflexivity.
      * split; [discriminate|]. intros [_ [H|H]]; discriminate H.
      * intros r Hr. injection Hr as <-. cbn [ChatRoute.status ChatRoute.body].
        split; [auto|]. split; [split; discriminate|].
        split; [|reflexivity]. intros _. split; [discriminate|].
        now exists prompt, text.
    + split; [|split; [|split]]; try reflexivity.
      * split; [discriminate|]. intros [_ [H|H]]; discriminate H.
      * intros r Hr. injection Hr as <-. cbn [ChatRoute.status ChatRoute.body].
        split; [auto|]. split; [split; discriminate|].
        split; [discriminate|].
        intros [_ (p & text & Hp & Hg' & _)]. injection Hp as <-. congruence.
  - cbn. split; [|split; [|split]]; try reflexivity.
    + split; [discriminate|]. intros [H _]. now contradiction H.
    + intros r Hr. injection Hr as <-. cbn.
      split; [auto|]. split; [tauto|].
      split; [discriminate|]. intros [H _]. now contradiction H.
Qed.

(** X23 (no embedding, no answer, over a whole session): against a
    backend whose embedding route answers every text with a status other
    than 200, any number of turns leaves the answers as they were and
    sends no prompt to the chat route, whatever is typed. *)
Theorem failing_embedding_session_generates_nothing :
  forall (Vec : Type) (be : Search.Backend Vec) (texts : list jsstring)
         (st : Search.Page Vec),
    (forall t, Search.status (Search.embeddingEndpoint be t) <> 200%Z) ->
    Search.answers (SearchView.session be texts st) = Search.answers st
    /\ Search.chatPrompts (Search.calls (SearchView.session be texts st))
       = Search.chatPrompts (Search.calls st).
Proof.
  intros Vec be texts st Hdown.
  revert st. induction texts as [|t texts IH]; intros st; [now split|].
  rewrite session_cons.
  destruct (IH (SearchView.submit be t st)) as [-> ->].
  unfold SearchView.submit.
  destruct (Search.submitted t) eqn:Hsub.
  - rewrite handleSearch_embedding_failed
      by (assumption || (apply Z.eqb_neq; apply Hdown)).
    cbn [Search.answers Search.calls SearchView.typeInto].
    unfold Search.chatPrompts. rewrite flat_map_app. cbn.
    now rewrite app_nil_r.
  - rewrite handleSearch_blank by assumption.
    cbn [Search.answers Search.calls SearchView.typeInto]. now split.
Qed.

Lemma failing_embedding_session_generates_nothing_witness :
  (forall t,
     Search.status
       (Search.embeddingEndpoint Search.embeddingDownBackend t) <> 200%Z)
  /\ Search.answers
       (SearchView.session Search.embeddingDownBackend
          [lit "falling"; lit "  "; lit "flying"] (Search.freshPage []))
     = Search.answers (Search.freshPage [])
  /\ Search.chatPrompts
       (Search.calls
          (SearchView.session Search.embeddingDownBackend
             [lit "falling"; lit "  "; lit "flying"] (Search.freshPage [])))
     = Search.chatPrompts (Search.calls (Search.freshPage [])).
Proof.
  assert (H : forall t,
             Search.status
               (Search.embeddingEndpoint Search.embeddingDownBackend t)
             <> 200%Z) by (intros t; cbn; discriminate).
  split; [exact H|].
  exact (@failing_embedding_session_generates_nothing unit
           Search.embeddingDownBackend
           [lit "falling"; lit "  "; lit "flying"] (Search.freshPage []) H).
Defined.

(* ------------------------------------------------------------------ *)
(** ** The chat route with a session *)

(** X26 (the placeholder message comes first, outside the try): when
    [getUser] gave a truthy [data], this handler first sends the fixed
    placeholder message on a chat session, whatever the body.  If that
    call throws, the handler ends on the exception and nothing else was
    called.  If it answers, its reply is logged and the body is read,
    still before the [try]: a body that is not JSON or is [null] ends
    the handler on an exception, after the message was sent and logged.
    Only with a body that was read does the handler answer: 200 with the
    generated text, or 400; the placeholder's reply is no part of the
    answer. *)
Theorem chat_session_route_sends_placeholder_first :
  forall (genAI : ChatSessionRoute.GenAI) (data : option RawRoutes.AuthData)
         (raw : RawRoutes.RawBody),
    data <> None ->
    hd_error (snd (ChatSessionRoute.POST genAI data raw))
      = Some (ChatSessionRoute.SendMessage ChatSessionRoute.placeholderMessage)
    /\ (ChatSessionRoute.sendMessage genAI ChatSessionRoute.placeholderMessage
          = None ->
        ChatSessionRoute.POST genAI data raw
        = (None,
           [ChatSessionRoute.SendMessage ChatSessionRoute.placeholderMessage]))
    /\ (forall reply,
          ChatSessionRoute.sendMessage genAI
            ChatSessionRoute.placeholderMessage = Some reply ->
          (raw = RawRoutes.NotJson \/ raw = RawRoutes.JsonNull ->
           ChatSessionRoute.POST genAI data raw
           = (None,
              [ChatSessionRoute.SendMessage
                 ChatSessionRoute.placeholderMessage;
               ChatSessionRoute.ConsoleLog reply]))
          /\ (forall prompt,
                raw = RawRoutes.JsonValue prompt ->
                ChatSessionRoute.POST genAI data raw
                = (Some
                     match ChatSessionRoute.generateContent genAI
                             ChatSessionRoute.geminiProName prompt
                     with
                     | Some text =>
                         {| ChatRoute.status := 200;
                            ChatRoute.body := ChatRoute.Choices text |}
                     | None =>
                         {| ChatRoute.status := 400;
                            ChatRoute.body :=
                              ChatRoute.Message
                                (lit "Something went wrong!") |}
                     end,
                   [ChatSessionRoute.SendMessage
                      ChatSessionRoute.placeholderMessage;
                    ChatSessionRoute.ConsoleLog reply;
                    ChatSessionRoute.GenerateContent
                      ChatSessionRoute.geminiProName prompt])))
    /\ (fst (ChatSessionRoute.POST genAI data raw) <> None ->
        exists reply prompt,
          ChatSessionRoute.sendMessage genAI
            ChatSessionRoute.placeholderMessage = Some reply
          /\ raw = RawRoutes.JsonValue prompt).
Proof.
  intros genAI data raw Hd.
  destruct data as [a|]; [clear Hd|now contradiction Hd].
  unfold ChatSessionRoute.POST.
  destruct (ChatSessionRoute.sendMessage genAI
              ChatSessionRoute.placeholderMessage) as [reply|].
  - split; [|split; [discriminate|split]].
    + destruct raw as [| |prompt]; try reflexivity.
      destruct (ChatSessionRoute.generateContent genAI
                  ChatSessionRoute.geminiProName prompt); reflexivity.
    + intros reply' Hr. injection Hr as <-. split.
      * intros [->| ->]; reflexivity.
      * intros prompt ->.
        destruct (ChatSessionRoute.generateContent genAI
                    ChatSessionRoute.geminiProName prompt); reflexivity.
    + destruct raw as [| |prompt]; cbn [fst];
        try (intros H; now contradiction H).
      intros _. now exists reply, prompt.
  - split; [reflexivity|]. split; [reflexivity|]. split; [discriminate|].
    cbn [fst]. intros H. now contradiction H.
Qed.

Lemma chat_session_route_sends_placeholder_first_witness :
  RawRoutes.nobody <> None
  /\ ChatSessionRoute.POST ChatSessionRoute.chattyClient RawRoutes.nobody
       RawRoutes.JsonNull
     = (None,
        [ChatSessionRoute.SendMessage ChatSessionRoute.placeholderMessage;
         ChatSessionRoute.ConsoleLog (lit "Hello")])
  /\ ChatSessionRoute.POST ChatSessionRoute.muteClient RawRoutes.nobody
       (RawRoutes.JsonValue (Some (lit "flying")))
     = (None,
        [ChatSessionRoute.SendMessage ChatSessionRoute.placeholderMessage]).
Proof.
  assert (Hd : RawRoutes.nobody <> None) by discriminate.
  split; [exact Hd|]. split.
  - destruct (@chat_session_route_sends_placeholder_first
                ChatSessionRoute.chattyClient RawRoutes.nobody
                RawRoutes.JsonNull Hd) as (_ & _ & H & _).
    destruct (H (lit "Hello") eq_refl) as [Hnull _].
    apply Hnull. now right.
  - destruct (@chat_session_route_sends_placeholder_first
                ChatSessionRoute.muteClient RawRoutes.nobody
                (RawRoutes.JsonValue (Some (lit "flying"))) Hd)
      as (_ & H & _).
    apply H. reflexivity.
Defined.
